(** * cpuwidget: the tray widget's loop, renderer tiers and update checks

    A shallow embedding of [cpuwidget.pyw].  Python text is modelled as
    [string], one [ascii] per code point below 256 (the Latin-1 range, in
    which the only decimal digits are 0-9); Python integers are [Z]; the
    float returned by the CPU sampler is modelled by its exact rational
    value.  Methods of [Widget] that write attributes are functions on a
    record of those attributes; the ones that can raise carry the raised
    exception next to the state they leave behind. *)

From Stdlib Require Import Bool Ascii String List ZArith QArith Qround Lia Lqa.
Import ListNotations.

Local Open Scope string_scope.
Local Open Scope Z_scope.

(** ** Python text primitives *)

Module Py.

Definition code (c : ascii) : nat := nat_of_ascii c.

(** [str.isspace] on a single code point below 256. *)
Definition isspace (c : ascii) : bool :=
  let n := code c in
  ((9 <=? n) && (n <=? 13) || (28 <=? n) && (n <=? 32)
   || (n =? 133) || (n =? 160))%nat.

(** Decimal digit, the class [\d] and the digits [int] accepts. *)
Definition isdigit (c : ascii) : bool :=
  let n := code c in ((48 <=? n) && (n <=? 57))%nat.

Definition digit_val (c : ascii) : Z := Z.of_nat (code c) - 48.

(** Line boundaries of [str.splitlines]. *)
Definition islinebreak (c : ascii) : bool :=
  let n := code c in
  ((10 <=? n) && (n <=? 13) || (28 <=? n) && (n <=? 30) || (n =? 133))%nat.

Definition rev_string (s : string) : string :=
  string_of_list_ascii (rev (list_ascii_of_string s)).

(** [s.splitlines()]: [cur] is the line being read, reversed; a carriage
    return directly followed by a line feed is one boundary. *)
Fixpoint splitlines_aux (s : string) (cur : string) (started : bool)
  : list string :=
  match s with
  | EmptyString => if started then [rev_string cur] else []
  | String c rest =>
      if islinebreak c then
        match rest with
        | String c' rest' =>
            if ((code c =? 13) && (code c' =? 10))%nat
            then rev_string cur :: splitlines_aux rest' EmptyString false
            else rev_string cur :: splitlines_aux rest EmptyString false
        | EmptyString => [rev_string cur]
        end
      else splitlines_aux rest (String c cur) true
  end.

Definition splitlines (s : string) : list string :=
  splitlines_aux s EmptyString false.

(** [s.split()]: fields are the maximal runs of non-space characters. *)
Fixpoint split_ws_aux (s : string) (cur : string) (started : bool)
  : list string :=
  match s with
  | EmptyString => if started then [rev_string cur] else []
  | String c rest =>
      if isspace c then
        if started then rev_string cur :: split_ws_aux rest EmptyString false
        else split_ws_aux rest EmptyString false
      else split_ws_aux rest (String c cur) true
  end.

Definition split_ws (s : string) : list string :=
  split_ws_aux s EmptyString false.

(** [s.split(sep)] for a one-character separator: empty fields are kept,
    and the empty text yields one empty field. *)
Fixpoint split_on_aux (sep : ascii) (s : string) (cur : string)
  : list string :=
  match s with
  | EmptyString => [rev_string cur]
  | String c rest =>
      if Ascii.eqb c sep
      then rev_string cur :: split_on_aux sep rest EmptyString
      else split_on_aux sep rest (String c cur)
  end.

Definition split_on (sep : ascii) (s : string) : list string :=
  split_on_aux sep s EmptyString.

(** [s.find(c)]: the index of the first occurrence, or -1. *)
Fixpoint find_from (c : ascii) (s : string) (i : Z) : Z :=
  match s with
  | EmptyString => -1
  | String d rest => if Ascii.eqb d c then i else find_from c rest (i + 1)
  end.

Definition find (c : ascii) (s : string) : Z := find_from c s 0.

Definition len (s : string) : Z := Z.of_nat (String.length s).

(** [s[:i]]: a negative bound counts from the end, and bounds are clipped
    to the text. *)
Definition slice_to (s : string) (i : Z) : string :=
  let stop := if i <? 0 then Z.max 0 (len s + i) else Z.min i (len s) in
  substring 0 (Z.to_nat stop) s.

(** [s.lstrip()]; its white space is also the class of white space of a
    pattern. *)
Fixpoint lstrip (s : string) : string :=
  match s with
  | String c rest => if isspace c then lstrip rest else s
  | EmptyString => EmptyString
  end.

(** The digits of a base-10 literal: one underscore may separate two
    digits, nothing else may appear.  [prev_digit] says whether the
    previous character was a digit; [acc] is the value read so far. *)
Fixpoint int_digits (s : string) (prev_digit : bool) (acc : Z) : option Z :=
  match s with
  | EmptyString => if prev_digit then Some acc else None
  | String c rest =>
      if isdigit c then int_digits rest true (10 * acc + digit_val c)
      else if ((code c =? 95)%nat && prev_digit)%bool
           then match rest with
                | String d _ =>
                    if isdigit d then int_digits rest false acc else None
                | EmptyString => None
                end
           else None
  end.

(** The white space that [int] skips at both ends of its argument.  It
    is not the class of [str.isspace]: the four separators 28 to 31 are
    copied as they are and then refused, being no white space for the C
    scanner; the two spaces above 127 are turned into blanks first. *)
Definition int_space (c : ascii) : bool :=
  let n := code c in
  ((9 <=? n) && (n <=? 13) || (n =? 32) || (n =? 133) || (n =? 160))%nat.

Fixpoint int_lstrip (s : string) : string :=
  match s with
  | String c rest => if int_space c then int_lstrip rest else s
  | EmptyString => EmptyString
  end.

Definition int_strip (s : string) : string :=
  rev_string (int_lstrip (rev_string (int_lstrip s))).

(** The number of digits of a text. *)
Fixpoint count_digits (s : string) : Z :=
  match s with
  | EmptyString => 0
  | String c rest => (if isdigit c then 1 else 0) + count_digits rest
  end.

(** [sys.int_info.default_max_str_digits]: [int] refuses a text with more
    digits than this (CPython 3.11 and later, and the security releases of
    3.10); the sign and the underscores do not count. *)
Definition max_str_digits : Z := 4300.

(** What follows the sign, read as a number. *)
Definition int_body (s : string) : option Z :=
  if max_str_digits <? count_digits s then None
  else int_digits s false 0.

(** [int(s)] for text [s]; [None] stands for [ValueError]. *)
Definition int (s : string) : option Z :=
  match int_strip s with
  | String c rest =>
      if (code c =? 45)%nat then option_map Z.opp (int_body rest)
      else if (code c =? 43)%nat then int_body rest
      else int_body (String c rest)
  | EmptyString => None
  end.

End Py.

(** ** Regular expressions

    The fragment of Python's [re] syntax that [Widget.__init__] compiles:
    literals, the digit class, concatenation and the star.  [Void], [Eps]
    and [Alt] only arise as derivatives. *)

Module Re.

Inductive regex : Type :=
| Void : regex
| Eps : regex
| Lit : ascii -> regex
| Digit : regex
| Cat : regex -> regex -> regex
| Alt : regex -> regex -> regex
| Star : regex -> regex.

(** The texts a pattern denotes. *)
Inductive denotes : regex -> string -> Prop :=
| DEps : denotes Eps EmptyString
| DLit c : denotes (Lit c) (String c EmptyString)
| DDigit c : Py.isdigit c = true -> denotes Digit (String c EmptyString)
| DCat r1 r2 s1 s2 :
    denotes r1 s1 -> denotes r2 s2 -> denotes (Cat r1 r2) (s1 ++ s2)
| DAltL r1 r2 s : denotes r1 s -> denotes (Alt r1 r2) s
| DAltR r1 r2 s : denotes r2 s -> denotes (Alt r1 r2) s
| DStarNil r : denotes (Star r) EmptyString
| DStarCons r s1 s2 :
    denotes r s1 -> denotes (Star r) s2 -> denotes (Star r) (s1 ++ s2).

Fixpoint nullable (r : regex) : bool :=
  match r with
  | Void | Lit _ | Digit => false
  | Eps | Star _ => true
  | Cat r1 r2 => nullable r1 && nullable r2
  | Alt r1 r2 => nullable r1 || nullable r2
  end.

(** Brzozowski derivative: the pattern of what may follow [c]. *)
Fixpoint deriv (c : ascii) (r : regex) : regex :=
  match r with
  | Void | Eps => Void
  | Lit d => if Ascii.eqb d c then Eps else Void
  | Digit => if Py.isdigit c then Eps else Void
  | Cat r1 r2 =>
      if nullable r1
      then Alt (Cat (deriv c r1) r2) (deriv c r2)
      else Cat (deriv c r1) r2
  | Alt r1 r2 => Alt (deriv c r1) (deriv c r2)
  | Star r1 => Cat (deriv c r1) (Star r1)
  end.

(** [pattern.match(s)] is truthy when the pattern denotes some prefix of
    [s]: the match is anchored at the start and may stop anywhere. *)
Fixpoint match_ (r : regex) (s : string) : bool :=
  nullable r ||
  match s with
  | EmptyString => false
  | String c rest => match_ (deriv c r) rest
  end.

End Re.

(** ** The widget *)

(** The configurables at the top of the module.  The functions below take
    them as a record, so that they can be read at other settings than the
    ones the file ships with. *)
Record Configurables : Type := {
  ignore_pip_packages : list string;
  ignore_choco_packages : list string;
  pip_ignore_breaking_changes : bool;
  choco_ignore_breaking_changes : bool;
  hours_to_search_for_upgrades : list Z
}.

Definition shipped : Configurables := {|
  ignore_pip_packages := ["zipp"; "jedi"; "readme-renderer"; "pypdfium2"];
  ignore_choco_packages := ["nodejs.install"; "nodejs"; "msys2"];
  pip_ignore_breaking_changes := true;
  choco_ignore_breaking_changes := true;
  hours_to_search_for_upgrades := [22; 4; 10; 16]
|}.

(** The attributes of [Widget] that the modelled methods read or write.
    [fonts] keeps the sizes whose font has been loaded.  Left out are
    [sec], which only paces the sampler, [active_guid], which belongs to
    the power-profile menu, and [flag22h] and [flag04h], which are set in
    [__init__] and never used again. *)
Record Widget : Type := {
  choco_update : bool;
  pip_update : bool;
  write_in_black : bool;
  fonts : list Z;
  lock : bool
}.

Definition set_choco_update (b : bool) (w : Widget) : Widget :=
  {| choco_update := b; pip_update := pip_update w;
     write_in_black := write_in_black w; fonts := fonts w; lock := lock w |}.

Definition set_pip_update (b : bool) (w : Widget) : Widget :=
  {| choco_update := choco_update w; pip_update := b;
     write_in_black := write_in_black w; fonts := fonts w; lock := lock w |}.

Definition set_write_in_black (b : bool) (w : Widget) : Widget :=
  {| choco_update := choco_update w; pip_update := pip_update w;
     write_in_black := b; fonts := fonts w; lock := lock w |}.

Definition set_fonts (f : list Z) (w : Widget) : Widget :=
  {| choco_update := choco_update w; pip_update := pip_update w;
     write_in_black := write_in_black w; fonts := f; lock := lock w |}.

Definition set_lock (b : bool) (w : Widget) : Widget :=
  {| choco_update := choco_update w; pip_update := pip_update w;
     write_in_black := write_in_black w; fonts := fonts w; lock := b |}.

(** The attributes as the first lines of [__init__] assign them, lines 62
    to 75; [is_light] is what [darkdetect.isLight()] answered.  What
    [__init__] does after that is not part of this state: it draws the
    first icon (line 143), which is [_get_image] on this state and caches
    one font, and it calls [_check_for_updates] (line 146), whose two
    worker threads end as actions of a run. *)
Definition init (is_light : bool) : Widget :=
  {| choco_update := false; pip_update := false;
     write_in_black := is_light; fonts := []; lock := false |}.

Inductive exn : Type :=
| FileNotFoundError
| ValueError
| UnicodeDecodeError.

(** [x in t] for a tuple of texts, and for a tuple of integers. *)
Definition str_in (x : string) (t : list string) : bool :=
  existsb (String.eqb x) t.

Definition int_in (x : Z) (t : list Z) : bool :=
  existsb (Z.eqb x) t.

(** [re.compile(r'\d*\.\d*\.\d*')] *)
Definition version_re : Re.regex :=
  Re.Cat (Re.Star Re.Digit)
    (Re.Cat (Re.Lit ".")
       (Re.Cat (Re.Star Re.Digit)
          (Re.Cat (Re.Lit ".") (Re.Star Re.Digit)))).

(** [_darkdetect_callback]: [color] is not read. *)
Definition _darkdetect_callback (color : string) (w : Widget) : Widget :=
  set_write_in_black (negb (write_in_black w)) w.

(** *** Rendering *)

(** Python's [round] on a finite float, given by its exact value: the
    nearest integer, a tie going to the even one. *)
Definition round (x : Q) : Z :=
  let f := Qfloor x in
  match Qcompare (x - inject_Z f) (1 # 2) with
  | Lt => f
  | Gt => f + 1
  | Eq => if Z.even f then f else f + 1
  end.

(** What [draw.text] is given.  The two coordinates of [xy] are floats
    with integral values and are kept as integers; [text] stands for
    [str(cpu_percent)]. *)
Record Image : Type := {
  font_size : Z;
  xy : Z * Z;
  text : Z;
  fill : Z * Z * Z * Z
}.

(** [_get_image], with [raw] the float that [psutil.cpu_percent] returned
    and the font file taken to load. *)
Definition _get_image (raw : Q) (w : Widget) : Widget * Image :=
  let cpu_percent := round raw in
  let '(size, position) :=
    if cpu_percent =? 100 then (21, (14, 14)) else (24, (18, 14)) in
  let colors_tuple :=
    if write_in_black w && (cpu_percent <? 50) then (0, 0, 0, 255)
    else if write_in_black w && (cpu_percent <? 75) then (230, 122, 5, 255)
    else if cpu_percent <? 50 then (255, 255, 255, 255)
    else if cpu_percent <? 75 then (255, 255, 0, 255)
    else (255, 0, 0, 255) in
  let w' := if int_in size (fonts w) then w
            else set_fonts (size :: fonts w) w in
  (w', {| font_size := size; xy := position; text := cpu_percent;
          fill := colors_tuple |}).

(** *** Update checks *)

(** What [subprocess.Popen(...).communicate()] and [out.decode()] did:
    the executable was not found; or the command ran and [out.decode()]
    is the given text; or the command ran and its output is not UTF-8, so
    that [out.decode()] raises.  An output that decodes to a text with a
    code point above 255 has no value here. *)
Inductive popen : Type :=
| Missing
| Ran (out : string)
| Undecodable.

(** The fate of one unpacked line: the loop goes to the next line, sets
    the flag and stops, or an exception leaves it. *)
Inductive verdict : Type :=
| Continue
| Break
| Raise (e : exn).

(** [version[:version.find('.')]] read as an integer. *)
Definition major (version : string) : option Z :=
  Py.int (Py.slice_to version (Py.find "." version)).

(** The body of both loops after the line has been unpacked; the two
    methods differ only in the names of their configurables. *)
Definition entry (ignore : list string) (ignore_breaking_changes : bool)
    (name version latest : string) : verdict :=
  if str_in name ignore then Continue
  else if ignore_breaking_changes then
    if negb (Re.match_ version_re version || Re.match_ version_re latest)
    then Continue
    else
      match major version with
      | None => Raise ValueError
      | Some major_version =>
          match major latest with
          | None => Raise ValueError
          | Some major_latest =>
              if major_latest >? major_version then Continue else Break
          end
      end
  else Break.

Fixpoint pip_loop (cfg : Configurables) (packages : list string)
    (w : Widget) : Widget * option exn :=
  match packages with
  | [] => (w, None)
  | line :: rest =>
      match Py.split_ws line with
      | [name; version; latest; _] =>
          match entry (ignore_pip_packages cfg)
                  (pip_ignore_breaking_changes cfg) name version latest with
          | Continue => pip_loop cfg rest w
          | Break => (set_pip_update true w, None)
          | Raise e => (w, Some e)
          end
      | _ => (w, Some ValueError)
      end
  end.

Definition _check_pip_updates (cfg : Configurables) (p : popen)
    (w : Widget) : Widget * option exn :=
  match p with
  | Missing => (w, Some FileNotFoundError)
  | Undecodable => (w, Some UnicodeDecodeError)
  | Ran out =>
      let output_list := Py.splitlines out in
      let packages := skipn 2 output_list in
      pip_loop cfg packages w
  end.

Fixpoint choco_loop (cfg : Configurables) (output_list : list string)
    (w : Widget) : Widget * option exn :=
  match output_list with
  | [] => (w, None)
  | line :: rest =>
      match Py.split_on "|" line with
      | [name; version; latest; _] =>
          match entry (ignore_choco_packages cfg)
                  (choco_ignore_breaking_changes cfg) name version latest with
          | Continue => choco_loop cfg rest w
          | Break => (set_choco_update true w, None)
          | Raise e => (w, Some e)
          end
      | _ => (w, Some ValueError)
      end
  end.

(** Only the start of the command is inside the [try]: the decoding and
    the scan are after it. *)
Definition _check_choco_updates (cfg : Configurables) (p : popen)
    (w : Widget) : Widget * option exn :=
  match p with
  | Missing => (w, None)
  | Undecodable => (w, Some UnicodeDecodeError)
  | Ran out => choco_loop cfg (Py.splitlines out) w
  end.

(** A thread started on [target]: an exception that leaves [target] ends
    that thread and nothing else. *)
Definition thread (target : Widget -> Widget * option exn) (w : Widget)
  : Widget :=
  fst (target w).

(** [_check_for_updates] once both of the threads it starts have ended,
    [choco] and [pip] being what the two commands did.  Each thread writes
    one attribute of its own, so the order in which they run to their end
    does not show (see [workers_commute]). *)
Definition _check_for_updates (cfg : Configurables) (choco pip : popen)
    (w : Widget) : Widget :=
  thread (_check_pip_updates cfg pip)
    (thread (_check_choco_updates cfg choco) w).

(** *** The loop *)

Inductive event : Type :=
| Notify (message title : string)
| CheckForUpdates
| SetIcon (img : Image).

(** What one iteration of the loop observes: the hour of
    [datetime.datetime.now()] and the sampler's reading. *)
Record tick : Type := {
  now_hour : Z;
  cpu : Q
}.

(** The head of the loop body: each flag that is set is reported and
    cleared. *)
Definition drain (w : Widget) : Widget * list event :=
  let '(w1, e1) :=
    if choco_update w
    then (set_choco_update false w,
          [Notify "Chocolatey signs upgrades available" "Chocolatey"])
    else (w, []) in
  let '(w2, e2) :=
    if pip_update w1
    then (set_pip_update false w1,
          [Notify "Pip signs upgrades available" "Pip"])
    else (w1, []) in
  (w2, (e1 ++ e2)%list).

(** The middle of the loop body: the hour test and the lock.
    [CheckForUpdates] records the call of [_check_for_updates]. *)
Definition schedule (cfg : Configurables) (hour : Z) (w : Widget)
  : Widget * list event :=
  if int_in hour (hours_to_search_for_upgrades cfg) then
    if negb (lock w) then (set_lock true w, [CheckForUpdates])
    else (w, [])
  else (set_lock false w, []).

(** One iteration of [while True] in [mainloop]. *)
Definition mainloop_body (cfg : Configurables) (t : tick) (w : Widget)
  : Widget * list event :=
  let '(w1, e1) := drain w in
  let '(w2, e2) := schedule cfg (now_hour t) w1 in
  let '(w3, img) := _get_image (cpu t) w2 in
  (w3, (e1 ++ e2 ++ [SetIcon img])%list).

(** What can happen to the widget once the loop runs: an iteration of the
    loop, a worker thread reaching its end, a theme notification. *)
Inductive action : Type :=
| Iterate (t : tick)
| PipWorker (p : popen)
| ChocoWorker (p : popen)
| ThemeChanged (color : string).

Definition step (cfg : Configurables) (a : action) (w : Widget)
  : Widget * list event :=
  match a with
  | Iterate t => mainloop_body cfg t w
  | PipWorker p => (thread (_check_pip_updates cfg p) w, [])
  | ChocoWorker p => (thread (_check_choco_updates cfg p) w, [])
  | ThemeChanged color => (_darkdetect_callback color w, [])
  end.

(** The events of each action of a run, in order. *)
Fixpoint run (cfg : Configurables) (actions : list action) (w : Widget)
  : Widget * list (list event) :=
  match actions with
  | [] => (w, [])
  | a :: rest =>
      let '(w1, e) := step cfg a w in
      let '(w2, es) := run cfg rest w1 in
      (w2, e :: es)
  end.

(** [mainloop] over the ticks it lives through, nothing else touching the
    widget. *)
Definition mainloop (cfg : Configurables) (ticks : list tick) (w : Widget)
  : Widget * list (list event) :=
  run cfg (map Iterate ticks) w.

(** ** The specification's vocabulary

    Definitions that follow the words of the specification, to be compared
    with the code above. *)

Module Spec.

(** The scheduler's latch: [Armed] becomes [Fired] on a tick whose hour
    matches, which triggers one check; [Fired] becomes [Armed] on a tick
    whose hour does not match. *)
Inductive latch : Type :=
| Armed
| Fired.

Definition latch_step (matches : Z -> bool) (hour : Z) (s : latch)
  : latch * nat :=
  if matches hour then
    match s with
    | Armed => (Fired, 1%nat)
    | Fired => (Fired, 0%nat)
    end
  else (Armed, 0%nat).

(** The number of checks a latch triggers at each tick. *)
Fixpoint latch_checks (matches : Z -> bool) (hours : list Z) (s : latch)
  : list nat :=
  match hours with
  | [] => []
  | h :: rest =>
      let '(s', n) := latch_step matches h s in
      n :: latch_checks matches rest s'
  end.

(** The names of the five fill colours. *)
Definition near_black : Z * Z * Z * Z := (0, 0, 0, 255).
Definition amber : Z * Z * Z * Z := (230, 122, 5, 255).
Definition near_white : Z * Z * Z * Z := (255, 255, 255, 255).
Definition yellow : Z * Z * Z * Z := (255, 255, 0, 255).
Definition red : Z * Z * Z * Z := (255, 0, 0, 255).

(** A percentage clamped to the range 0..100. *)
Definition clamp (n : Z) : Z := Z.max 0 (Z.min 100 n).

End Spec.

(** ** Observations on runs *)

Definition is_check (e : event) : bool :=
  match e with
  | CheckForUpdates => true
  | _ => false
  end.

Definition is_notify (title : string) (e : event) : bool :=
  match e with
  | Notify _ t => String.eqb t title
  | _ => false
  end.

(** How often an iteration called [_check_for_updates]. *)
Definition checks (es : list event) : nat :=
  List.length (filter is_check es).

(** How many notifications with the given title an iteration posted. *)
Definition notified (title : string) (es : list event) : nat :=
  List.length (filter (is_notify title) es).

(** The checks of each iteration of a run of the loop. *)
Definition check_counts (cfg : Configurables) (ticks : list tick)
    (w : Widget) : list nat :=
  map checks (snd (mainloop cfg ticks w)).

(** The checks that fall on ticks whose hour is [h]. *)
Fixpoint during (h : Z) (ticks : list tick) (counts : list nat)
  : list nat :=
  match ticks, counts with
  | t :: ticks', n :: counts' =>
      (if now_hour t =? h then n else 0%nat) :: during h ticks' counts'
  | _, _ => []
  end.

(** No two consecutive ticks observe two different configured hours. *)
Fixpoint separated (configured : list Z) (hours : list Z) : bool :=
  match hours with
  | a :: (b :: _) as rest =>
      (negb (int_in a configured && int_in b configured) || (a =? b))
      && separated configured rest
  | _ => true
  end.

(** No configured hour is followed on the clock by a configured hour. *)
Definition no_adjacent (configured : list Z) : bool :=
  forallb (fun a => negb (int_in ((a + 1) mod 24) configured)) configured.

(** From one tick to the next the clock stays in its hour or moves to the
    following one. *)
Fixpoint steady (hours : list Z) : bool :=
  match hours with
  | a :: (b :: _) as rest =>
      ((b =? a) || (b =? (a + 1) mod 24)) && steady rest
  | _ => true
  end.

Definition latch_of (locked : bool) : Spec.latch :=
  if locked then Spec.Fired else Spec.Armed.

(** A malformed line is met by the scan: every line before it is unpacked
    and passed over, and it does not split into four fields. *)
Fixpoint meets_malformed (split : string -> list string)
    (ignore : list string) (ignore_breaking_changes : bool)
    (lines : list string) : bool :=
  match lines with
  | [] => false
  | line :: rest =>
      match split line with
      | [name; version; latest; _] =>
          match entry ignore ignore_breaking_changes name version latest with
          | Continue =>
              meets_malformed split ignore ignore_breaking_changes rest
          | _ => false
          end
      | _ => true
      end
  end.

Definition pip_meets_malformed (cfg : Configurables) (out : string) : bool :=
  meets_malformed Py.split_ws (ignore_pip_packages cfg)
    (pip_ignore_breaking_changes cfg) (skipn 2 (Py.splitlines out)).

Definition choco_meets_malformed (cfg : Configurables) (out : string)
  : bool :=
  meets_malformed (Py.split_on "|") (ignore_choco_packages cfg)
    (choco_ignore_breaking_changes cfg) (Py.splitlines out).

(** ** Sample outputs of the two commands *)

Definition nl : string := String "010" EmptyString.

Definition pip_header : string :=
  "Package Version Latest Type" ++ nl ++ "------- ------- ------ -----" ++ nl.

(** The output of [pip list -o] with one outdated package. *)
Definition pip_single (name version latest : string) : string :=
  pip_header ++ name ++ " " ++ version ++ " " ++ latest ++ " wheel" ++ nl.

(** The output of [choco outdated -r] with one outdated package. *)
Definition choco_single (name version latest : string) : string :=
  name ++ "|" ++ version ++ "|" ++ latest ++ "|false" ++ nl.

(** Breaking changes ignored for both ecosystems, nothing in the ignore
    sets. *)
Definition no_ignore (hours : list Z) : Configurables := {|
  ignore_pip_packages := [];
  ignore_choco_packages := [];
  pip_ignore_breaking_changes := true;
  choco_ignore_breaking_changes := true;
  hours_to_search_for_upgrades := hours
|}.

Definition all_digits (s : string) : Prop :=
  Forall (fun c => Py.isdigit c = true) (list_ascii_of_string s).

(** The icon that a widget started in the given theme draws for the
    percentage [pct]: [darkMode] says that the theme is dark, so that
    [darkdetect.isLight()] answers its negation. *)
Definition render (pct : Z) (darkMode : bool) : Image :=
  snd (_get_image (inject_Z pct) (init (negb darkMode))).

(** A tick at the hour [h], at a reading of two and a half percent. *)
Definition at_hour (h : Z) : tick := {| now_hour := h; cpu := 25 # 10 |}.

(** A night of ticks through both 22 and 4. *)
Definition night : list tick :=
  map at_hour [21; 22; 22; 22; 23; 3; 4; 4; 5; 22; 22].

(** An output of [pip list -o] whose only row has two fields, and one of
    [choco outdated -r] whose only row has three. *)
Definition short_pip : string := pip_header ++ "foo 1.2.3" ++ nl.
Definition short_choco : string := "bar|1.2.3|1.2.4" ++ nl.

(** A widget whose pip worker has just found an upgrade. *)
Definition pip_found : Widget :=
  thread (_check_pip_updates shipped
            (Ran (pip_single "foo" "1.2.3" "1.9.9"))) (init true).

(** An action that is not the end of a worker thread. *)
Definition quiet (a : action) : bool :=
  match a with
  | PipWorker _ | ChocoWorker _ => false
  | _ => true
  end.

(** ** Further observations *)

(** The value of a run of decimal digits. *)
Definition digits_value (s : string) : Z :=
  fold_left (fun acc c => 10 * acc + Py.digit_val c)
    (list_ascii_of_string s) 0.

(** What [int] makes of a run of digits: its value, unless the run is
    empty or longer than [int] accepts. *)
Definition run_value (d : string) : option Z :=
  if String.eqb d EmptyString then None
  else if Py.max_str_digits <? Py.len d then None
       else Some (digits_value d).

(** How often the character [c] occurs in [s]. *)
Fixpoint count_char (c : ascii) (s : string) : nat :=
  match s with
  | EmptyString => 0%nat
  | String d rest =>
      ((if Ascii.eqb d c then 1 else 0) + count_char c rest)%nat
  end.

(** [sep.join(fields)] *)
Fixpoint join (sep : string) (fields : list string) : string :=
  match fields with
  | [] => EmptyString
  | [f] => f
  | f :: rest => f ++ sep ++ join sep rest
  end.

Definition no_linebreak (s : string) : bool :=
  forallb (fun c => negb (Py.islinebreak c)) (list_ascii_of_string s).

Definition all_space (s : string) : bool :=
  forallb Py.isspace (list_ascii_of_string s).

(** The name of a row that unpacks. *)
Definition row_name (split : string -> list string) (line : string)
  : option string :=
  match split line with
  | [name; _; _; _] => Some name
  | _ => None
  end.

(** Every row unpacks and carries an ignored name. *)
Definition all_ignored (split : string -> list string)
    (ignore : list string) (rows : list string) : bool :=
  forallb (fun line =>
             match row_name split line with
             | Some name => str_in name ignore
             | None => false
             end) rows.

(** What the loop body makes of a row: [None] when it does not unpack. *)
Definition row_verdict (split : string -> list string)
    (ignore : list string) (ignore_breaking_changes : bool)
    (line : string) : option verdict :=
  match split line with
  | [name; version; latest; _] =>
      Some (entry ignore ignore_breaking_changes name version latest)
  | _ => None
  end.

Definition passed_over (v : option verdict) : bool :=
  match v with
  | Some Continue => true
  | _ => false
  end.

Definition qualifies (v : option verdict) : bool :=
  match v with
  | Some Break => true
  | _ => false
  end.

Definition is_iterate (a : action) : bool :=
  match a with
  | Iterate _ => true
  | _ => false
  end.

Definition is_theme (a : action) : bool :=
  match a with
  | ThemeChanged _ => true
  | _ => false
  end.

Definition is_icon (e : event) : bool :=
  match e with
  | SetIcon _ => true
  | _ => false
  end.

Definition is_pip_worker (a : action) : bool :=
  match a with
  | PipWorker _ => true
  | _ => false
  end.

Definition is_choco_worker (a : action) : bool :=
  match a with
  | ChocoWorker _ => true
  | _ => false
  end.

(** The notifications with the given title over a whole run. *)
Definition total_notified (title : string) (events : list (list event))
  : nat :=
  list_sum (map (notified title) events).

(** The calls of [_check_for_updates] over a whole run of the loop. *)
Definition calls (cfg : Configurables) (ticks : list tick) (w : Widget)
  : nat :=
  list_sum (check_counts cfg ticks w).

(** The ticks at an hour that is not configured. *)
Definition outside (cfg : Configurables) (ticks : list tick) : nat :=
  List.length
    (filter (fun t => negb (int_in (now_hour t)
                              (hours_to_search_for_upgrades cfg))) ticks).

(** ** Power profiles and the menu *)

Module Startup.

Inductive error : Type :=
| FileNotFoundError
| UnicodeDecodeError
| AssertionError.

Inductive result (A : Type) : Type :=
| Ok (a : A)
| Raised (e : error).

Arguments Ok {A} a.
Arguments Raised {A} e.

(** The class [[0-9a-f]]. *)
Definition ishex (c : ascii) : bool :=
  Py.isdigit c || ((97 <=? Py.code c) && (Py.code c <=? 102))%nat.

(** Exactly [n] characters of the class [p], and what follows them. *)
Fixpoint take (p : ascii -> bool) (n : nat) (s : string)
  : option (string * string) :=
  match n with
  | O => Some (EmptyString, s)
  | S n' =>
      match s with
      | String c rest =>
          if p c then
            match take p n' rest with
            | Some (t, r) => Some (String c t, r)
            | None => None
            end
          else None
      | EmptyString => None
      end
  end.

(** [k] hexadecimal digits and a dash. *)
Definition hex_dash (k : nat) (s : string) : option (string * string) :=
  match take ishex k s with
  | Some (t, String c rest) =>
      if Ascii.eqb c "-" then Some (t ++ "-", rest) else None
  | _ => None
  end.

(** The first group of [guid_re] at the start of [s]:
    [[0-9a-f]{8}-[0-9a-f]{4}-[0-9a-f]{4}-[0-9a-f]{4}-[0-9a-f]{12}]. *)
Definition guid_at (s : string) : option (string * string) :=
  match hex_dash 8 s with
  | Some (a, s1) =>
      match hex_dash 4 s1 with
      | Some (b, s2) =>
          match hex_dash 4 s2 with
          | Some (c, s3) =>
              match hex_dash 4 s3 with
              | Some (d, s4) =>
                  match take ishex 12 s4 with
                  | Some (e, rest) => Some (a ++ b ++ c ++ d ++ e, rest)
                  | None => None
                  end
              | None => None
              end
          | None => None
          end
      | None => None
      end
  | None => None
  end.

(** The second group of [guid_re], any characters, greedily, and the
    closing parenthesis after it: the dot does not match a line feed and
    the star is greedy, so the group runs to the last closing parenthesis
    before the first line feed.  The result is the group and what follows
    the parenthesis. *)
Fixpoint last_close (s : string) : option (string * string) :=
  match s with
  | EmptyString => None
  | String c rest =>
      if (Py.code c =? 10)%nat then None
      else
        match last_close rest with
        | Some (name, after) => Some (String c name, after)
        | None =>
            if Ascii.eqb c ")" then Some (EmptyString, rest) else None
        end
  end.

(** The optional third group, a space and an asterisk, with
    [groups('')]: the group when it is there, the empty text when it is
    not. *)
Definition asterisk_of (after : string) : string :=
  if prefix " *" after then " *" else EmptyString.

(** [guid_re] matched at the start of [s], as [match.groups('')]. *)
Definition guid_match (s : string) : option (string * string * string) :=
  match guid_at s with
  | Some (guid_hash, rest) =>
      match Py.lstrip rest with
      | String c rest' =>
          if Ascii.eqb c "(" then
            match last_close rest' with
            | Some (guid_name, after) =>
                Some (guid_hash, guid_name, asterisk_of after)
            | None => None
            end
          else None
      | EmptyString => None
      end
  | None => None
  end.

(** [self.guid_re.search(line)]: the match at the leftmost position that
    has one. *)
Fixpoint guid_search (line : string) : option (string * string * string) :=
  match guid_match line with
  | Some groups => Some groups
  | None =>
      match line with
      | String _ rest => guid_search rest
      | EmptyString => None
      end
  end.

Fixpoint profiles_of (lines : list string)
  : list (string * string * string) :=
  match lines with
  | [] => []
  | line :: rest =>
      match guid_search line with
      | None => profiles_of rest
      | Some groups => groups :: profiles_of rest
      end
  end.

(** [_get_profiles], [p] being what [powercfg /l] did. *)
Definition _get_profiles (p : popen)
  : result (list (string * string * string)) :=
  match p with
  | Missing => Raised FileNotFoundError
  | Undecodable => Raised UnicodeDecodeError
  | Ran out => Ok (profiles_of (Py.splitlines out))
  end.

(** The two attributes of [Widget] that the menu reads and writes. *)
Record Settings : Type := {
  sec : Q;
  active_guid : string
}.

(** The callables handed to [pystray.MenuItem] as the action of an item:
    the closures of [_set_sec] and [_set_state], the lambda that calls
    [_check_for_updates], and [_exit_prog]. *)
Inductive callback : Type :=
| SetSec (s : Q)
| SetState (guid_hash : string)
| SearchForUpdates
| ExitProg.

(** The callables handed over as [checked]: the two lambdas on [self.sec]
    and the closure of [_get_state]. *)
Inductive check : Type :=
| SecIs (s : Q)
| GetState (guid_hash : string).

Inductive menu_entry : Type :=
| MenuItem (text : string) (action : callback) (checked : option check)
    (radio : bool)
| SEPARATOR.

(** The closure of [_set_sec(sec)] called. *)
Definition _set_sec (s : Q) (st : Settings) : Settings :=
  {| sec := s; active_guid := active_guid st |}.

(** The closure of [_get_state(guid_hash)] called. *)
Definition _get_state (guid_hash : string) (st : Settings) : bool :=
  String.eqb (active_guid st) guid_hash.

(** The closure of [_set_state(guid_hash)] called; [spawned] says whether
    [subprocess.Popen] found [powercfg]. *)
Definition _set_state (guid_hash : string) (spawned : bool) (st : Settings)
  : Settings * option error :=
  if spawned
  then ({| sec := sec st; active_guid := guid_hash |}, None)
  else (st, Some FileNotFoundError).

Definition is_checked (c : check) (st : Settings) : bool :=
  match c with
  | SecIs s => Qeq_bool (sec st) s
  | GetState guid_hash => _get_state guid_hash st
  end.

(** What a click on an item does to the two attributes. *)
Definition click (a : callback) (spawned : bool) (st : Settings)
  : Settings :=
  match a with
  | SetSec s => _set_sec s st
  | SetState guid_hash => fst (_set_state guid_hash spawned st)
  | SearchForUpdates | ExitProg => st
  end.

Definition profile_item (guid_hash guid_name : string) : menu_entry :=
  MenuItem guid_name (SetState guid_hash) (Some (GetState guid_hash)) true.

Definition truthy (s : string) : bool :=
  negb (String.eqb s EmptyString).

(** The loop of [__init__] over the profiles. *)
Fixpoint add_profiles (profiles : list (string * string * string))
    (guid : string) (menu : list menu_entry)
  : result (string * list menu_entry) :=
  match profiles with
  | [] => Ok (guid, menu)
  | (guid_hash, guid_name, asterisk) :: rest =>
      let active := truthy asterisk in
      if active then
        if negb (truthy guid) then
          add_profiles rest guid_hash
            (menu ++ [profile_item guid_hash guid_name])%list
        else Raised AssertionError
      else
        add_profiles rest guid
          (menu ++ [profile_item guid_hash guid_name])%list
  end.

(** The part of [__init__] that sets [sec] and [active_guid] and builds
    the menu. *)
Definition init_menu (p : popen) : result (Settings * list menu_entry) :=
  let menu :=
    [MenuItem "1 sec" (SetSec 1) (Some (SecIs 1)) true;
     MenuItem "0.5 sec" (SetSec (1 # 2)) (Some (SecIs (1 # 2))) true;
     SEPARATOR] in
  match _get_profiles p with
  | Raised e => Raised e
  | Ok profiles =>
      match add_profiles profiles EmptyString menu with
      | Raised e => Raised e
      | Ok (guid, menu') =>
          Ok ({| sec := 1 # 2; active_guid := guid |},
              (menu' ++ [SEPARATOR;
                         MenuItem "Search for updates" SearchForUpdates
                           None false;
                         SEPARATOR;
                         MenuItem "Exit" ExitProg None false])%list)
      end
  end.

(** The texts of the radio items that show as checked. *)
Fixpoint checked_items (menu : list menu_entry) (st : Settings)
  : list string :=
  match menu with
  | [] => []
  | MenuItem text _ (Some c) _ :: rest =>
      if is_checked c st then text :: checked_items rest st
      else checked_items rest st
  | _ :: rest => checked_items rest st
  end.

(** The actions of the items of a menu. *)
Fixpoint actions_of (menu : list menu_entry) : list callback :=
  match menu with
  | [] => []
  | MenuItem _ a _ _ :: rest => a :: actions_of rest
  | SEPARATOR :: rest => actions_of rest
  end.

(** A sequence of clicks, each with a process that did spawn. *)
Definition clicks (acts : list callback) (st : Settings) : Settings :=
  fold_left (fun s a => click a true s) acts st.

(** A well-formed identifier: five runs of 8, 4, 4, 4 and 12 lower-case
    hexadecimal digits with a dash between them. *)
Definition is_guid (g : string) : bool :=
  match guid_at g with
  | Some (g', EmptyString) => String.eqb g' g
  | _ => false
  end.

(** A line as [powercfg /l] prints it. *)
Definition profile_line (lead guid_hash guid_name : string) (active : bool)
  : string :=
  lead ++ guid_hash ++ "  (" ++ guid_name ++ ")"
  ++ (if active then " *" else EmptyString).

Definition no_char (c : ascii) (s : string) : bool :=
  forallb (fun d => negb (Ascii.eqb d c)) (list_ascii_of_string s).

Definition is_active (p : string * string * string) : bool :=
  truthy (snd p).

(** The menu items of a list of profiles. *)
Definition profile_items (profiles : list (string * string * string))
  : list menu_entry :=
  map (fun p => profile_item (fst (fst p)) (snd (fst p))) profiles.

(** The menu for a list of profiles: the two intervals, the profiles, the
    search and the exit. *)
Definition menu_of (profiles : list (string * string * string))
  : list menu_entry :=
  ([MenuItem "1 sec" (SetSec 1) (Some (SecIs 1)) true;
    MenuItem "0.5 sec" (SetSec (1 # 2)) (Some (SecIs (1 # 2))) true;
    SEPARATOR]
   ++ profile_items profiles
   ++ [SEPARATOR;
       MenuItem "Search for updates" SearchForUpdates None false;
       SEPARATOR;
       MenuItem "Exit" ExitProg None false])%list.

(** The groups of a profile with the given identifier and name. *)
Definition groups_of (row : string * string * bool)
  : string * string * string :=
  (fst (fst row), snd (fst row),
   if snd row then " *" else EmptyString).

(** The listing that [powercfg /l] prints for the given profiles. *)
Definition listing (rows : list (string * string * bool)) : string :=
  nl ++ "Existing Power Schemes (* Active)" ++ nl
  ++ "-----------------------------------" ++ nl
  ++ fold_right
       (fun row rest =>
          profile_line "Power Scheme GUID: " (fst (fst row))
            (snd (fst row)) (snd row) ++ nl ++ rest)
       EmptyString rows.

(** The index of the first dash of a text. *)
Fixpoint first_dash (s : string) : option nat :=
  match s with
  | EmptyString => None
  | String c rest =>
      if Ascii.eqb c "-" then Some 0%nat
      else option_map S (first_dash rest)
  end.

End Startup.

(** ** Rendering tiers *)

Section Rendering.

Variables (raw : Q) (w : Widget).

Let img : Image := snd (_get_image raw w).

Lemma get_image_text : text img = round raw.
Proof.
  unfold img, _get_image.
  destruct (round raw =? 100); reflexivity.
Qed.

Lemma get_image_font :
  (font_size img, xy img)
  = if round raw =? 100 then (21, (14, 14)) else (24, (18, 14)).
Proof.
  unfold img, _get_image.
  destruct (round raw =? 100); reflexivity.
Qed.

Lemma get_image_fill_low :
  round raw < 50 ->
  fill img = if write_in_black w then Spec.near_black else Spec.near_white.
Proof.
  intros Hlt. unfold img, _get_image.
  apply Z.ltb_lt in Hlt as Hb.
  destruct (round raw =? 100); cbn [snd fill]; rewrite Hb;
    destruct (write_in_black w); reflexivity.
Qed.

Lemma get_image_fill_mid :
  50 <= round raw < 75 ->
  fill img = if write_in_black w then Spec.amber else Spec.yellow.
Proof.
  intros [Hlo Hhi]. unfold img, _get_image.
  apply Z.ltb_lt in Hhi as Hb.
  apply Z.ltb_ge in Hlo as Hc.
  destruct (round raw =? 100); cbn [snd fill]; rewrite Hb, Hc;
    destruct (write_in_black w); reflexivity.
Qed.

Lemma get_image_fill_high :
  75 <= round raw -> fill img = Spec.red.
Proof.
  intros Hlo. unfold img, _get_image.
  assert (Hb : (round raw <? 75) = false) by (apply Z.ltb_ge; lia).
  assert (Hc : (round raw <? 50) = false) by (apply Z.ltb_ge; lia).
  destruct (round raw =? 100); cbn [snd fill]; rewrite Hb, Hc;
    destruct (write_in_black w); reflexivity.
Qed.

End Rendering.

(** [round] leaves an integral reading as it is, so every percentage is
    the rounding of some reading. *)
Lemma round_inject_Z (n : Z) : round (inject_Z n) = n.
Proof.
  unfold round. rewrite Qfloor_Z.
  assert (H : (inject_Z n - inject_Z n ?= 1 # 2)%Q = Lt).
  { apply (proj1 (Qlt_alt _ _)). lra. }
  rewrite H. reflexivity.
Qed.

(** C5, as the specification has it, fails: in the dark theme 74 percent
    is drawn in yellow, not in amber. *)
Lemma dark_theme_not_amber : fill (render 74 true) <> Spec.amber.
Proof.
  vm_compute. discriminate.
Qed.

(** C5, amended: the colour is chosen by [write_in_black], which is set
    in the light theme and clear in the dark one, since [__init__] takes
    it from [darkdetect.isLight()] and each change of theme negates it.
    In the range 0..100, for a widget whose flag is the negation of
    [darkMode]: below 50 near-black in the light theme and near-white in
    the dark one, from 50 and below 75 amber in the light theme and yellow
    in the dark one, from 75 on red in both; 49 in the light theme is
    near-black, 50 in the light theme amber, 74 in the dark theme yellow
    and 75 in the dark theme red. *)
Theorem color_tiers_by_theme (raw : Q) (w : Widget) (darkMode : bool) :
  0 <= round raw <= 100 ->
  write_in_black w = negb darkMode ->
  let pct := round raw in
  let c := fill (snd (_get_image raw w)) in
  (pct < 50 -> c = if darkMode then Spec.near_white else Spec.near_black)
  /\ (50 <= pct < 75 -> c = if darkMode then Spec.yellow else Spec.amber)
  /\ (75 <= pct -> c = Spec.red)
  /\ write_in_black (init (negb darkMode)) = negb darkMode
  /\ (forall color,
        write_in_black (_darkdetect_callback color w)
        = negb (negb darkMode))
  /\ fill (render 49 false) = Spec.near_black
  /\ fill (render 50 false) = Spec.amber
  /\ fill (render 74 true) = Spec.yellow
  /\ fill (render 75 true) = Spec.red.
Proof.
  intros _ Hw pct c. subst pct c.
  split; [intros H; rewrite (get_image_fill_low raw w H), Hw;
          destruct darkMode; reflexivity |].
  split; [intros H; rewrite (get_image_fill_mid raw w H), Hw;
          destruct darkMode; reflexivity |].
  split; [apply get_image_fill_high |].
  split; [reflexivity |].
  split; [intros color; cbn; rewrite Hw; reflexivity |].
  unfold render.
  split; [| split; [| split]]; vm_compute; reflexivity.
Qed.

Lemma color_tiers_by_theme_witness :
  0 <= round (62 # 1) <= 100
  /\ write_in_black (init (negb true)) = negb true
  /\ fill (snd (_get_image (62 # 1) (init (negb true)))) = Spec.yellow
  /\ write_in_black (init (negb false)) = negb false
  /\ fill (snd (_get_image (62 # 1) (init (negb false)))) = Spec.amber.
Proof.
  assert (R : 0 <= round (62 # 1) <= 100)
    by (vm_compute; split; discriminate).
  assert (B : 50 <= round (62 # 1) < 75)
    by (vm_compute; split; [discriminate | reflexivity]).
  split; [exact R |].
  split; [reflexivity |].
  split.
  - exact (proj1 (proj2 (color_tiers_by_theme (62 # 1) (init (negb true))
                           true R eq_refl)) B).
  - split; [reflexivity |].
    exact (proj1 (proj2 (color_tiers_by_theme (62 # 1) (init (negb false))
                           false R eq_refl)) B).
Defined.

(** C6: the font size is 21 and the anchor (14,14) exactly when the
    percentage is 100; at every other percentage they are 24 and
    (18,14). *)
Theorem font_size_iff_full (raw : Q) (w : Widget) :
  let pct := round raw in
  let img := snd (_get_image raw w) in
  (font_size img = 21 /\ xy img = (14, 14) <-> pct = 100)
  /\ (font_size img = 24 /\ xy img = (18, 14) <-> pct <> 100)
  /\ (font_size img = 21 <-> pct = 100).
Proof.
  cbv zeta.
  pose proof (get_image_font raw w) as H.
  destruct (Z.eqb_spec (round raw) 100) as [E | E];
    injection H as Hs Hp; rewrite Hs, Hp.
  - repeat split; try assumption; try reflexivity; intros; try congruence.
    destruct H; discriminate.
  - repeat split; try assumption; try reflexivity; intros; try congruence;
      try discriminate.
    destruct H; discriminate.
Qed.

(** ** The sampler's reading *)

(** [round] is within one half of its argument, and an exact half goes to
    the even neighbour. *)
Lemma round_nearest (x : Q) :
  (inject_Z (round x) - (1 # 2) <= x <= inject_Z (round x) + (1 # 2))%Q
  /\ ((x == inject_Z (round x) - (1 # 2))%Q
      \/ (x == inject_Z (round x) + (1 # 2))%Q -> Z.even (round x) = true).
Proof.
  unfold round.
  pose proof (Qfloor_le x) as Hlo.
  pose proof (Qlt_floor x) as Hhi.
  rewrite inject_Z_plus in Hhi.
  change (inject_Z 1) with 1%Q in Hhi.
  set (f := Qfloor x) in *.
  destruct (Qcompare_spec (x - inject_Z f) (1 # 2)) as [E | L | G].
  - destruct (Z.even f) eqn:Ev.
    + split; [generalize dependent (inject_Z f); intros; lra | auto].
    + rewrite inject_Z_plus. change (inject_Z 1) with 1%Q.
      split; [generalize dependent (inject_Z f); intros; lra |].
      intros _. rewrite Z.even_add, Ev. reflexivity.
  - split; [generalize dependent (inject_Z f); intros; lra |].
    intros [H | H]; generalize dependent (inject_Z f); intros; lra.
  - rewrite inject_Z_plus. change (inject_Z 1) with 1%Q.
    split; [generalize dependent (inject_Z f); intros; lra |].
    intros [H | H]; generalize dependent (inject_Z f); intros; lra.
Qed.

Lemma round_in_range (x : Q) :
  (0 <= x <= 100)%Q -> 0 <= round x <= 100.
Proof.
  intros [Hlo Hhi].
  pose proof (Qfloor_resp_le _ _ Hlo) as Flo.
  pose proof (Qfloor_resp_le _ _ Hhi) as Fhi.
  change (Qfloor 0) with 0 in Flo.
  change (Qfloor 100) with 100 in Fhi.
  unfold round.
  destruct (Qcompare_spec (x - inject_Z (Qfloor x)) (1 # 2)) as [E | L | G].
  - destruct (Z.even (Qfloor x)) eqn:Ev; [lia |].
    destruct (Z.eq_dec (Qfloor x) 100) as [F | F]; [| lia].
    rewrite F in Ev. discriminate.
  - lia.
  - destruct (Z.eq_dec (Qfloor x) 100) as [F | F]; [| lia].
    rewrite F in G. change (inject_Z 100) with 100%Q in G. lra.
Qed.

(** C8: for every reading in the range that [psutil.cpu_percent] reports,
    0 to 100, the percentage drawn is an integer from 0 to 100: it is the
    reading rounded to the nearest integer, an exact half going to the
    even neighbour, and it is its own clamp to 0..100, so that nothing
    outside 0..100 is drawn. *)
Theorem reading_rounded (raw : Q) (w : Widget) :
  (0 <= raw <= 100)%Q ->
  let pct := text (snd (_get_image raw w)) in
  pct = round raw
  /\ 0 <= pct <= 100
  /\ pct = Spec.clamp (round raw)
  /\ (inject_Z pct - (1 # 2) <= raw <= inject_Z pct + (1 # 2))%Q
  /\ ((raw == inject_Z pct - (1 # 2))%Q \/ (raw == inject_Z pct + (1 # 2))%Q
      -> Z.even pct = true).
Proof.
  intros Hr. cbv zeta. rewrite get_image_text.
  pose proof (round_in_range raw Hr) as R.
  split; [reflexivity |].
  split; [exact R |].
  split; [unfold Spec.clamp; lia |].
  apply round_nearest.
Qed.

Lemma reading_rounded_witness :
  (0 <= 125 # 10 <= 100)%Q
  /\ text (snd (_get_image (125 # 10) (init true))) = 12.
Proof.
  assert (R : (0 <= 125 # 10 <= 100)%Q).
  { split; unfold Qle; simpl; lia. }
  split; [exact R |].
  rewrite (proj1 (reading_rounded (125 # 10) (init true) R)).
  reflexivity.
Defined.

(** The range is the reading's: [_get_image] itself rounds and does
    nothing else to the number. *)
Example round_of_larger_reading : round (1013 # 10) = 101.
Proof. reflexivity. Qed.

(** ** The theme callback *)

(** C9: the callback replaces the flag by its negation whatever text it
    is called with and touches nothing else, so two calls, with any texts,
    give back the widget they started from. *)
Theorem darkdetect_callback_toggles (color color' : string) (w : Widget) :
  write_in_black (_darkdetect_callback color w) = negb (write_in_black w)
  /\ _darkdetect_callback color w = _darkdetect_callback color' w
  /\ _darkdetect_callback color' (_darkdetect_callback color w) = w.
Proof.
  destruct w as [c p b f l].
  unfold _darkdetect_callback, set_write_in_black. cbn.
  rewrite negb_involutive. repeat split.
Qed.

(** ** The loop: draining the flags *)

Lemma drain_state (w : Widget) :
  fst (drain w)
  = set_pip_update false (set_choco_update false w).
Proof.
  destruct w as [c p b f l]. unfold drain.
  destruct c, p; reflexivity.
Qed.

Lemma drain_notified (w : Widget) :
  notified "Pip" (snd (drain w)) = Nat.b2n (pip_update w)
  /\ notified "Chocolatey" (snd (drain w)) = Nat.b2n (choco_update w)
  /\ List.length (snd (drain w))
     = (Nat.b2n (choco_update w) + Nat.b2n (pip_update w))%nat.
Proof.
  destruct w as [c p b f l]. unfold drain.
  destruct c, p; repeat split.
Qed.

(** Neither the hour test nor the drawing touches a flag or posts a
    notification. *)
Lemma schedule_flags (cfg : Configurables) (hour : Z) (w : Widget) :
  let r := schedule cfg hour w in
  pip_update (fst r) = pip_update w
  /\ choco_update (fst r) = choco_update w
  /\ forall title, notified title (snd r) = 0%nat.
Proof.
  unfold schedule.
  destruct (int_in hour _); [destruct (negb (lock w)) |]; repeat split.
Qed.

Lemma get_image_flags (raw : Q) (w : Widget) :
  pip_update (fst (_get_image raw w)) = pip_update w
  /\ choco_update (fst (_get_image raw w)) = choco_update w
  /\ lock (fst (_get_image raw w)) = lock w
  /\ write_in_black (fst (_get_image raw w)) = write_in_black w.
Proof.
  unfold _get_image.
  destruct (round raw =? 100); cbn [fst];
    match goal with |- context [int_in ?s ?f] => destruct (int_in s f) end;
    repeat split.
Qed.

Lemma notified_app (title : string) (es es' : list event) :
  notified title (es ++ es') = (notified title es + notified title es')%nat.
Proof.
  unfold notified. rewrite filter_app, length_app. reflexivity.
Qed.

Lemma body_unfold (cfg : Configurables) (t : tick) (w : Widget) :
  mainloop_body cfg t w
  = (fst (_get_image (cpu t)
            (fst (schedule cfg (now_hour t) (fst (drain w))))),
     (snd (drain w) ++ snd (schedule cfg (now_hour t) (fst (drain w)))
      ++ [SetIcon (snd (_get_image (cpu t)
             (fst (schedule cfg (now_hour t) (fst (drain w))))))])%list).
Proof.
  unfold mainloop_body.
  destruct (drain w) as [w1 e1]. cbn [fst snd].
  destruct (schedule cfg (now_hour t) w1) as [w2 e2]. cbn [fst snd].
  destruct (_get_image (cpu t) w2) as [w3 img]. reflexivity.
Qed.

Lemma body_flags (cfg : Configurables) (t : tick) (w : Widget) :
  pip_update (fst (mainloop_body cfg t w)) = false
  /\ choco_update (fst (mainloop_body cfg t w)) = false.
Proof.
  rewrite body_unfold. cbn [fst].
  destruct (get_image_flags (cpu t)
              (fst (schedule cfg (now_hour t) (fst (drain w)))))
    as (Hp & Hc & _).
  destruct (schedule_flags cfg (now_hour t) (fst (drain w))) as (Sp & Sc & _).
  rewrite Hp, Hc, Sp, Sc, drain_state. split; reflexivity.
Qed.

Lemma body_notified (cfg : Configurables) (t : tick) (w : Widget)
    (title : string) :
  notified title (snd (mainloop_body cfg t w))
  = notified title (snd (drain w)).
Proof.
  rewrite body_unfold. cbn [snd].
  rewrite !notified_app.
  destruct (schedule_flags cfg (now_hour t) (fst (drain w))) as (_ & _ & Sn).
  rewrite Sn. cbn. lia.
Qed.

(** Without a worker, cleared flags stay cleared and nothing is posted. *)
Lemma quiet_run_silent (cfg : Configurables) (actions : list action) :
  forall w,
    forallb quiet actions = true ->
    pip_update w = false -> choco_update w = false ->
    Forall (fun es => notified "Pip" es = 0%nat
                      /\ notified "Chocolatey" es = 0%nat)
      (snd (run cfg actions w))
    /\ pip_update (fst (run cfg actions w)) = false
    /\ choco_update (fst (run cfg actions w)) = false.
Proof.
  induction actions as [| a rest IH]; intros w Hq Hp Hc.
  - cbn. auto.
  - cbn [forallb] in Hq. apply andb_prop in Hq as [Ha Hrest].
    cbn [run].
    destruct (step cfg a w) as [w1 e] eqn:Es.
    assert (H1 : pip_update w1 = false /\ choco_update w1 = false
                 /\ notified "Pip" e = 0%nat
                 /\ notified "Chocolatey" e = 0%nat).
    { destruct a as [t | p | p | color]; try discriminate; cbn [step] in Es.
      - pose proof (body_flags cfg t w) as [Bp Bc].
        pose proof (body_notified cfg t w "Pip") as Np.
        pose proof (body_notified cfg t w "Chocolatey") as Nc.
        destruct (drain_notified w) as (Dp & Dc & _).
        rewrite Es in *. cbn [fst snd] in *.
        rewrite Np, Nc, Dp, Dc, Hp, Hc. auto.
      - injection Es as <- <-. destruct w; cbn in *. auto. }
    destruct H1 as (P1 & C1 & Np & Nc).
    specialize (IH w1 Hrest P1 C1).
    destruct (run cfg rest w1) as [w2 es]. cbn [fst snd] in *.
    destruct IH as (F & P2 & C2).
    split; [constructor; auto | auto].
Qed.

(** C7: a drain step posts one notification for each flag that is set and
    none for a flag that is clear, and leaves both flags clear, so a clear
    flag is not changed; an iteration of the loop posts the notifications
    of its drain step and no other; and from the end of an iteration on,
    as long as no worker thread ends, nothing is posted and both flags
    stay clear. *)
Theorem drain_round_trip (cfg : Configurables) (w : Widget) (t : tick)
    (actions : list action) :
  forallb quiet actions = true ->
  let w1 := fst (mainloop_body cfg t w) in
  notified "Pip" (snd (drain w)) = Nat.b2n (pip_update w)
  /\ notified "Chocolatey" (snd (drain w)) = Nat.b2n (choco_update w)
  /\ pip_update (fst (drain w)) = false
  /\ choco_update (fst (drain w)) = false
  /\ notified "Pip" (snd (mainloop_body cfg t w)) = Nat.b2n (pip_update w)
  /\ notified "Chocolatey" (snd (mainloop_body cfg t w))
     = Nat.b2n (choco_update w)
  /\ Forall (fun es => notified "Pip" es = 0%nat
                       /\ notified "Chocolatey" es = 0%nat)
       (snd (run cfg actions w1))
  /\ pip_update (fst (run cfg actions w1)) = false
  /\ choco_update (fst (run cfg actions w1)) = false.
Proof.
  intros Hq w1.
  destruct (drain_notified w) as (Dp & Dc & _).
  rewrite !body_notified, drain_state.
  repeat (split; [first [exact Dp | exact Dc | reflexivity] |]).
  destruct (body_flags cfg t w) as [Bp Bc].
  apply quiet_run_silent; assumption.
Qed.

Lemma drain_round_trip_witness :
  forallb quiet [Iterate (at_hour 22); ThemeChanged "Dark";
                 Iterate (at_hour 22)] = true
  /\ notified "Pip" (snd (drain pip_found)) = 1%nat
  /\ pip_update (fst (drain pip_found)) = false
  /\ Forall (fun es => notified "Pip" es = 0%nat
                       /\ notified "Chocolatey" es = 0%nat)
       (snd (run shipped
               [Iterate (at_hour 22); ThemeChanged "Dark";
                Iterate (at_hour 22)]
               (fst (mainloop_body shipped (at_hour 22) pip_found)))).
Proof.
  assert (Hq : forallb quiet [Iterate (at_hour 22); ThemeChanged "Dark";
                              Iterate (at_hour 22)] = true) by reflexivity.
  pose proof (drain_round_trip shipped pip_found (at_hour 22) _ Hq) as H.
  cbv zeta in H.
  destruct H as (Hp & _ & Hf & _ & _ & _ & Hs & _).
  split; [exact Hq |].
  split; [exact Hp |].
  split; [exact Hf | exact Hs].
Defined.

(** ** The loop: the hour test and the lock *)

Lemma int_in_In (x : Z) (t : list Z) : In x t -> int_in x t = true.
Proof.
  intros Hin. unfold int_in. apply existsb_exists.
  exists x. split; [exact Hin | apply Z.eqb_refl].
Qed.

Lemma drain_lock (w : Widget) : lock (fst (drain w)) = lock w.
Proof. rewrite drain_state. reflexivity. Qed.

(** One iteration moves the lock as a latch on "the hour is configured"
    moves, and calls [_check_for_updates] when that latch fires. *)
Lemma body_latch (cfg : Configurables) (t : tick) (w : Widget) :
  let member := fun x => int_in x (hours_to_search_for_upgrades cfg) in
  Spec.latch_step member (now_hour t) (latch_of (lock w))
  = (latch_of (lock (fst (mainloop_body cfg t w))),
     checks (snd (mainloop_body cfg t w))).
Proof.
  cbv zeta. rewrite body_unfold. cbn [fst snd].
  destruct (get_image_flags (cpu t)
              (fst (schedule cfg (now_hour t) (fst (drain w)))))
    as (_ & _ & Hl & _).
  rewrite Hl. unfold checks. rewrite !filter_app, !length_app.
  assert (Hd : List.length (filter is_check (snd (drain w))) = 0%nat).
  { destruct w as [c p b f l]. unfold drain. destruct c, p; reflexivity. }
  rewrite Hd. cbn [filter is_check List.length].
  unfold schedule, Spec.latch_step. rewrite drain_lock.
  destruct (int_in (now_hour t) (hours_to_search_for_upgrades cfg));
    destruct (lock w) eqn:El; cbn; rewrite ?drain_lock, ?El; reflexivity.
Qed.

(** The loop keeps one latch for all the configured hours. *)
Lemma loop_shared_latch (cfg : Configurables) (ticks : list tick) :
  forall w,
    check_counts cfg ticks w
    = Spec.latch_checks
        (fun x => int_in x (hours_to_search_for_upgrades cfg))
        (map now_hour ticks) (latch_of (lock w)).
Proof.
  unfold check_counts, mainloop.
  induction ticks as [| t rest IH]; intros w; [reflexivity |].
  cbn [map run step Spec.latch_checks].
  pose proof (body_latch cfg t w) as Hb. cbv zeta in Hb. rewrite Hb.
  destruct (mainloop_body cfg t w) as [w1 e]. cbn [fst snd].
  specialize (IH w1).
  destruct (run cfg (map Iterate rest) w1) as [w2 es]. cbn [fst snd map] in *.
  rewrite IH. reflexivity.
Qed.

(** A shared latch attributes to the hour [h] what a latch for [h] alone
    triggers, on ticks that never pass from one configured hour straight to
    another. *)
Lemma shared_latch_during (conf : list Z) (h : Z) (ticks : list tick) :
  In h conf ->
  forall s sh,
    separated conf (map now_hour ticks) = true ->
    s = sh
    \/ (s = Spec.Fired /\ sh = Spec.Armed
        /\ match ticks with
           | t :: _ => now_hour t <> h
           | [] => True
           end) ->
    during h ticks
      (Spec.latch_checks (fun x => int_in x conf) (map now_hour ticks) s)
    = Spec.latch_checks (Z.eqb h) (map now_hour ticks) sh.
Proof.
  intros Hin. apply int_in_In in Hin.
  induction ticks as [| t rest IH]; intros s sh Hsep Hinv; [reflexivity |].
  cbn [map Spec.latch_checks during].
  assert (Hsep' : separated conf (map now_hour rest) = true).
  { cbn [map separated] in Hsep. destruct (map now_hour rest);
      [reflexivity | apply andb_prop in Hsep; tauto]. }
  assert (Hnext : int_in (now_hour t) conf = true -> now_hour t <> h ->
                  match rest with
                  | t' :: _ => now_hour t' <> h
                  | [] => True
                  end).
  { intros Ht Hne. destruct rest as [| t' rest']; [exact I |].
    cbn [map separated] in Hsep. apply andb_prop in Hsep as [Hab _].
    intros E. rewrite Ht, E, Hin in Hab. cbn in Hab.
    apply Z.eqb_eq in Hab. congruence. }
  unfold Spec.latch_step.
  destruct (Z.eqb_spec (now_hour t) h) as [E | E].
  - rewrite E, Hin, Z.eqb_refl.
    destruct Hinv as [-> | (_ & _ & Hne)]; [| contradiction].
    destruct sh; cbn [during]; f_equal; apply IH; auto.
  - assert (Eh : (h =? now_hour t) = false) by (apply Z.eqb_neq; congruence).
    rewrite Eh.
    destruct (int_in (now_hour t) conf) eqn:Ht.
    + destruct s; cbn [during]; f_equal; apply IH; auto;
        right; repeat split; apply Hnext; auto.
    + cbn [during]. f_equal. apply IH; auto.
Qed.

(** C1, as the specification has it, fails: with 22 and 23 configured, a
    tick at 22 followed by a tick at 23 calls [_check_for_updates] at the
    first tick only, while the latch for 23 fires at the second. *)
Lemma adjacent_hours_share_lock :
  during 23 [at_hour 22; at_hour 23]
    (check_counts (no_ignore [22; 23]) [at_hour 22; at_hour 23] (init true))
  <> Spec.latch_checks (Z.eqb 23) (map now_hour [at_hour 22; at_hour 23])
       Spec.Armed.
Proof.
  vm_compute. discriminate.
Qed.

(** Hours that are not adjacent are kept apart by a loop that ticks in
    every hour. *)
Lemma steady_separated (conf : list Z) (hours : list Z) :
  no_adjacent conf = true -> steady hours = true ->
  separated conf hours = true.
Proof.
  intros Hn. unfold no_adjacent in Hn. rewrite forallb_forall in Hn.
  induction hours as [| a rest IH]; [reflexivity |].
  destruct rest as [| b rest']; [reflexivity |].
  intros Hs. cbn [steady] in Hs. apply andb_prop in Hs as [Hab Hs].
  specialize (IH Hs). cbn [separated] in IH |- *. rewrite IH, andb_true_r.
  destruct (Z.eqb_spec a b) as [E | E]; [apply orb_true_r |].
  rewrite orb_false_r. apply negb_true_iff, andb_false_iff.
  destruct (int_in a conf) eqn:Ha; [right | left; reflexivity].
  apply orb_prop in Hab as [Hab | Hab]; apply Z.eqb_eq in Hab;
    [congruence |].
  unfold int_in in Ha. apply existsb_exists in Ha as (x & Hx & Ex).
  apply Z.eqb_eq in Ex. subst x.
  specialize (Hn a Hx). apply negb_true_iff in Hn. rewrite Hab. exact Hn.
Qed.

(** C1, amended: the loop keeps one latch for all the configured hours,
    fired by a tick at a configured hour and rearmed by a tick at an hour
    that is not configured.  On every sequence of ticks in which no two
    consecutive ticks observe two different configured hours, the calls of
    [_check_for_updates] that fall on ticks of a configured hour [h] are
    those of an Armed/Fired latch for [h] alone: one call on the first
    tick of each maximal run of ticks at [h], rearmed by a tick at another
    hour, however many ticks there are. *)
Theorem scheduler_latch_per_hour (cfg : Configurables) (ticks : list tick)
    (w : Widget) (h : Z) :
  In h (hours_to_search_for_upgrades cfg) ->
  separated (hours_to_search_for_upgrades cfg) (map now_hour ticks) = true ->
  check_counts cfg ticks w
  = Spec.latch_checks
      (fun x => int_in x (hours_to_search_for_upgrades cfg))
      (map now_hour ticks) (latch_of (lock w))
  /\ during h ticks (check_counts cfg ticks w)
     = Spec.latch_checks (Z.eqb h) (map now_hour ticks) (latch_of (lock w)).
Proof.
  intros Hin Hsep.
  rewrite loop_shared_latch.
  split; [reflexivity | apply shared_latch_during; auto].
Qed.

Lemma scheduler_latch_per_hour_witness :
  In 22 (hours_to_search_for_upgrades shipped)
  /\ separated (hours_to_search_for_upgrades shipped) (map now_hour night)
     = true
  /\ during 22 night (check_counts shipped night (init true))
     = [0; 1; 0; 0; 0; 0; 0; 0; 0; 1; 0]%nat.
Proof.
  assert (Hin : In 22 (hours_to_search_for_upgrades shipped))
    by (left; reflexivity).
  assert (Hsep : separated (hours_to_search_for_upgrades shipped)
                   (map now_hour night) = true) by reflexivity.
  split; [exact Hin |]. split; [exact Hsep |].
  rewrite (proj2 (scheduler_latch_per_hour shipped night (init true) 22
                    Hin Hsep)).
  reflexivity.
Defined.

(** ** The version pattern *)

Section Append.

Lemma app_empty_r (s : string) : s ++ EmptyString = s.
Proof. induction s as [| c s IH]; cbn; [| rewrite IH]; reflexivity. Qed.

Lemma app_string_assoc (s t u : string) : (s ++ t) ++ u = s ++ (t ++ u).
Proof. induction s as [| c s IH]; cbn; [| rewrite IH]; reflexivity. Qed.

Lemma app_is_empty (s t : string) :
  s ++ t = EmptyString -> s = EmptyString /\ t = EmptyString.
Proof. destruct s; cbn; [auto | discriminate]. Qed.

Lemma app_is_cons (s t u : string) (c : ascii) :
  s ++ t = String c u ->
  (s = EmptyString /\ t = String c u)
  \/ exists s', s = String c s' /\ u = s' ++ t.
Proof.
  destruct s as [| d s]; cbn; intros E; [left; auto | right].
  injection E as -> <-. exists s. auto.
Qed.

End Append.

Module ReFacts.
Import Re.

Lemma nullable_sound (r : regex) :
  nullable r = true -> denotes r EmptyString.
Proof.
  induction r; cbn; intros H; try discriminate.
  - constructor.
  - apply andb_prop in H as [H1 H2].
    change EmptyString with (EmptyString ++ EmptyString).
    constructor; auto.
  - apply orb_prop in H as [H | H]; [apply DAltL | apply DAltR]; auto.
  - constructor.
Qed.

Lemma nullable_complete (r : regex) (s : string) :
  denotes r s -> s = EmptyString -> nullable r = true.
Proof.
  induction 1; cbn; intros E; try discriminate; try reflexivity.
  - apply app_is_empty in E as [E1 E2]. rewrite IHdenotes1, IHdenotes2; auto.
  - rewrite IHdenotes; auto.
  - rewrite IHdenotes; auto using orb_true_r.
Qed.

Lemma deriv_sound (c : ascii) (r : regex) :
  forall s, denotes (deriv c r) s -> denotes r (String c s).
Proof.
  induction r; cbn; intros s H.
  - inversion H.
  - inversion H.
  - destruct (Ascii.eqb_spec a c) as [-> | N]; inversion H; subst.
    constructor.
  - destruct (Py.isdigit c) eqn:D; inversion H; subst.
    constructor. exact D.
  - assert (Hcat : forall t, denotes (Cat (deriv c r1) r2) t ->
                             denotes (Cat r1 r2) (String c t)).
    { intros t Ht. inversion Ht; subst.
      change (String c (s1 ++ s2)) with (String c s1 ++ s2).
      constructor; auto. }
    destruct (nullable r1) eqn:N; [| auto].
    inversion H; subst; [auto |].
    change (String c s) with (EmptyString ++ String c s).
    constructor; [apply nullable_sound; exact N | auto].
  - inversion H; subst; [apply DAltL | apply DAltR]; auto.
  - inversion H; subst.
    change (String c (s1 ++ s2)) with (String c s1 ++ s2).
    constructor; auto.
Qed.

Lemma deriv_complete (r : regex) (t : string) :
  denotes r t ->
  forall c s, t = String c s -> denotes (deriv c r) s.
Proof.
  induction 1; intros a u E; cbn.
  - discriminate.
  - injection E as -> <-. rewrite Ascii.eqb_refl. constructor.
  - injection E as -> <-. rewrite H. constructor.
  - apply app_is_cons in E as [[-> E] | (s' & -> & ->)].
    + rewrite (nullable_complete r1 EmptyString); auto.
      apply DAltR. auto.
    + assert (Hc : denotes (Cat (deriv a r1) r2) (s' ++ s2))
        by (constructor; auto).
      destruct (nullable r1); [apply DAltL |]; exact Hc.
  - apply DAltL. auto.
  - apply DAltR. auto.
  - discriminate.
  - apply app_is_cons in E as [[-> E] | (s' & -> & ->)].
    + apply (IHdenotes2 a u E).
    + constructor; auto.
Qed.

(** [match_] finds exactly the texts that start with a text of the
    pattern. *)
Lemma match_prefix (s : string) :
  forall r,
    match_ r s = true <-> exists p q, s = p ++ q /\ denotes r p.
Proof.
  induction s as [| c s IH]; intros r; cbn [match_].
  - rewrite orb_false_r. split.
    + intros N. exists EmptyString, EmptyString.
      split; [reflexivity | apply nullable_sound; exact N].
    + intros (p & q & E & D). symmetry in E.
      apply app_is_empty in E as [-> _].
      apply (nullable_complete r EmptyString); auto.
  - split.
    + intros H. apply orb_prop in H as [N | M].
      * exists EmptyString, (String c s).
        split; [reflexivity | apply nullable_sound; exact N].
      * apply IH in M as (p & q & -> & D).
        exists (String c p), q. split; [reflexivity |].
        apply deriv_sound. exact D.
    + intros (p & q & E & D). destruct p as [| d p].
      * rewrite (nullable_complete r EmptyString); auto.
      * cbn in E. injection E as <- ->.
        apply orb_true_iff. right. apply IH.
        exists p, q. split; [reflexivity |].
        apply (deriv_complete r (String c p)); auto.
Qed.

Lemma star_digit (s : string) :
  denotes (Star Digit) s <-> all_digits s.
Proof.
  unfold all_digits. split.
  - remember (Star Digit) as r eqn:Er. induction 1; try discriminate.
    + constructor.
    + injection Er as ->. inversion H; subst. cbn.
      constructor; auto.
  - induction s as [| c s IH]; cbn; intros H.
    + constructor.
    + inversion H; subst.
      change (String c s) with (String c EmptyString ++ s).
      constructor; [constructor; assumption | auto].
Qed.

Lemma lit_inv (c : ascii) (s : string) :
  denotes (Lit c) s -> s = String c EmptyString.
Proof. inversion 1; reflexivity. Qed.

(** The pattern [\d*\.\d*\.\d*] denotes the texts made of three runs of
    digits, each possibly empty, with a dot between them. *)
Lemma version_re_denotes (p : string) :
  denotes version_re p <->
  exists d1 d2 d3,
    p = d1 ++ "." ++ d2 ++ "." ++ d3
    /\ all_digits d1 /\ all_digits d2 /\ all_digits d3.
Proof.
  unfold version_re. split.
  - intros H.
    inversion H as [| | | ? ? d1 t1 H1 H2 | | | |]; subst.
    inversion H2 as [| | | ? ? l1 t2 H3 H4 | | | |]; subst.
    inversion H4 as [| | | ? ? d2 t3 H5 H6 | | | |]; subst.
    inversion H6 as [| | | ? ? l2 d3 H7 H8 | | | |]; subst.
    apply lit_inv in H3, H7. subst.
    exists d1, d2, d3. rewrite <- !star_digit. auto.
  - intros (d1 & d2 & d3 & -> & A1 & A2 & A3).
    rewrite <- star_digit in A1, A2, A3.
    repeat (constructor; auto).
Qed.

End ReFacts.

(** [version_re.match] accepts the texts that begin with two runs of
    digits, each possibly empty, each followed by a dot. *)
Lemma version_re_match (s : string) :
  Re.match_ version_re s = true <->
  exists d1 d2 rest,
    s = d1 ++ "." ++ d2 ++ "." ++ rest /\ all_digits d1 /\ all_digits d2.
Proof.
  rewrite ReFacts.match_prefix. split.
  - intros (p & q & -> & D).
    apply ReFacts.version_re_denotes in D
      as (d1 & d2 & d3 & -> & A1 & A2 & _).
    exists d1, d2, (d3 ++ q). split; [| auto].
    rewrite !app_string_assoc. reflexivity.
  - intros (d1 & d2 & rest & -> & A1 & A2).
    exists (d1 ++ "." ++ d2 ++ "."), rest. split.
    + rewrite !app_string_assoc. reflexivity.
    + apply ReFacts.version_re_denotes.
      exists d1, d2, EmptyString. split; [reflexivity |].
      split; [exact A1 |]. split; [exact A2 | constructor].
Qed.

(** ** The update checks *)

(** A scan either leaves the widget as it is or sets its own flag, and
    which of the two does not depend on the widget. *)
Lemma pip_loop_shape (cfg : Configurables) (packages : list string) :
  exists (b : bool) (e : option exn),
    forall w,
      pip_loop cfg packages w
      = ((if b then set_pip_update true w else w), e).
Proof.
  induction packages as [| line rest (b & e & IH)].
  - exists false, None. reflexivity.
  - cbn [pip_loop].
    destruct (Py.split_ws line) as [| n [| v [| l [| x [| y fs]]]]];
      try (exists false, (Some ValueError); reflexivity).
    destruct (entry _ _ n v l) as [| | e'].
    + exists b, e. exact IH.
    + exists true, None. reflexivity.
    + exists false, (Some e'). reflexivity.
Qed.

Lemma choco_loop_shape (cfg : Configurables) (output_list : list string) :
  exists (b : bool) (e : option exn),
    forall w,
      choco_loop cfg output_list w
      = ((if b then set_choco_update true w else w), e).
Proof.
  induction output_list as [| line rest (b & e & IH)].
  - exists false, None. reflexivity.
  - cbn [choco_loop].
    destruct (Py.split_on "|" line) as [| n [| v [| l [| x [| y fs]]]]];
      try (exists false, (Some ValueError); reflexivity).
    destruct (entry _ _ n v l) as [| | e'].
    + exists b, e. exact IH.
    + exists true, None. reflexivity.
    + exists false, (Some e'). reflexivity.
Qed.

Lemma pip_worker_shape (cfg : Configurables) (p : popen) :
  exists b : bool,
    forall w,
      thread (_check_pip_updates cfg p) w
      = if b then set_pip_update true w else w.
Proof.
  destruct p as [| out |];
    [exists false; reflexivity | | exists false; reflexivity].
  destruct (pip_loop_shape cfg (skipn 2 (Py.splitlines out))) as (b & e & H).
  exists b. intros w. unfold thread, _check_pip_updates.
  rewrite H. reflexivity.
Qed.

Lemma choco_worker_shape (cfg : Configurables) (p : popen) :
  exists b : bool,
    forall w,
      thread (_check_choco_updates cfg p) w
      = if b then set_choco_update true w else w.
Proof.
  destruct p as [| out |];
    [exists false; reflexivity | | exists false; reflexivity].
  destruct (choco_loop_shape cfg (Py.splitlines out)) as (b & e & H).
  exists b. intros w. unfold thread, _check_choco_updates.
  rewrite H. reflexivity.
Qed.

(** The two worker threads may end in either order. *)
Lemma workers_commute (cfg : Configurables) (choco pip : popen)
    (w : Widget) :
  thread (_check_pip_updates cfg pip)
    (thread (_check_choco_updates cfg choco) w)
  = thread (_check_choco_updates cfg choco)
      (thread (_check_pip_updates cfg pip) w).
Proof.
  destruct (pip_worker_shape cfg pip) as (bp & Hp).
  destruct (choco_worker_shape cfg choco) as (bc & Hc).
  rewrite !Hp, !Hc. destruct bp, bc; reflexivity.
Qed.

(** Each flag after [_check_for_updates] is the one its own check
    computes. *)
Lemma check_for_updates_flags (cfg : Configurables) (choco pip : popen)
    (w : Widget) :
  pip_update (_check_for_updates cfg choco pip w)
  = pip_update (fst (_check_pip_updates cfg pip w))
  /\ choco_update (_check_for_updates cfg choco pip w)
     = choco_update (fst (_check_choco_updates cfg choco w)).
Proof.
  unfold _check_for_updates.
  destruct (pip_worker_shape cfg pip) as (bp & Hp).
  destruct (choco_worker_shape cfg choco) as (bc & Hc).
  change (fst (_check_pip_updates cfg pip w))
    with (thread (_check_pip_updates cfg pip) w).
  change (fst (_check_choco_updates cfg choco w))
    with (thread (_check_choco_updates cfg choco) w).
  rewrite !Hp, !Hc. destruct bp, bc; split; reflexivity.
Qed.

Lemma pip_loop_malformed (cfg : Configurables) (packages : list string) :
  meets_malformed Py.split_ws (ignore_pip_packages cfg)
    (pip_ignore_breaking_changes cfg) packages = true ->
  forall w, pip_loop cfg packages w = (w, Some ValueError).
Proof.
  induction packages as [| line rest IH]; cbn [meets_malformed pip_loop];
    [discriminate |].
  destruct (Py.split_ws line) as [| n [| v [| l [| x [| y fs]]]]]; auto.
  destruct (entry _ _ n v l); auto; discriminate.
Qed.

Lemma choco_loop_malformed (cfg : Configurables)
    (output_list : list string) :
  meets_malformed (Py.split_on "|") (ignore_choco_packages cfg)
    (choco_ignore_breaking_changes cfg) output_list = true ->
  forall w, choco_loop cfg output_list w = (w, Some ValueError).
Proof.
  induction output_list as [| line rest IH];
    cbn [meets_malformed choco_loop]; [discriminate |].
  destruct (Py.split_on "|" line) as [| n [| v [| l [| x [| y fs]]]]]; auto.
  destruct (entry _ _ n v l); auto; discriminate.
Qed.

(** C4: when the scan of one ecosystem's output meets a line that does not
    split into four fields, that check ends with [ValueError] and leaves
    its flag as it was, so false if it was false; and in the same
    [_check_for_updates] the flag of the other ecosystem is the one its
    own check computes from its own output. *)
Theorem malformed_line_local (cfg : Configurables) (out : string)
    (other : popen) (w : Widget) :
  (pip_meets_malformed cfg out = true ->
   let w' := _check_for_updates cfg other (Ran out) w in
   _check_pip_updates cfg (Ran out) w = (w, Some ValueError)
   /\ pip_update w' = pip_update w
   /\ choco_update w'
      = choco_update (fst (_check_choco_updates cfg other w)))
  /\ (choco_meets_malformed cfg out = true ->
      let w' := _check_for_updates cfg (Ran out) other w in
      _check_choco_updates cfg (Ran out) w = (w, Some ValueError)
      /\ choco_update w' = choco_update w
      /\ pip_update w'
         = pip_update (fst (_check_pip_updates cfg other w))).
Proof.
  split; intros Hm w'; subst w'.
  - assert (Hp : _check_pip_updates cfg (Ran out) w = (w, Some ValueError))
      by (apply pip_loop_malformed; exact Hm).
    destruct (check_for_updates_flags cfg other (Ran out) w) as [Fp Fc].
    rewrite Fp, Fc, Hp. auto.
  - assert (Hc : _check_choco_updates cfg (Ran out) w = (w, Some ValueError))
      by (apply choco_loop_malformed; exact Hm).
    destruct (check_for_updates_flags cfg (Ran out) other w) as [Fp Fc].
    rewrite Fp, Fc, Hc. auto.
Qed.

Lemma malformed_line_local_witness :
  (pip_meets_malformed shipped short_pip = true
   /\ pip_update
        (_check_for_updates shipped
           (Ran (choco_single "bar" "1.2.3" "1.2.4")) (Ran short_pip)
           (init true)) = false
   /\ choco_update
        (_check_for_updates shipped
           (Ran (choco_single "bar" "1.2.3" "1.2.4")) (Ran short_pip)
           (init true)) = true)
  /\ (choco_meets_malformed shipped short_choco = true
      /\ choco_update
           (_check_for_updates shipped (Ran short_choco)
              (Ran (pip_single "foo" "1.2.3" "1.9.9")) (init true)) = false
      /\ pip_update
           (_check_for_updates shipped (Ran short_choco)
              (Ran (pip_single "foo" "1.2.3" "1.9.9")) (init true)) = true).
Proof.
  assert (Mp : pip_meets_malformed shipped short_pip = true) by reflexivity.
  assert (Mc : choco_meets_malformed shipped short_choco = true)
    by reflexivity.
  split.
  - destruct (proj1 (malformed_line_local shipped short_pip
                       (Ran (choco_single "bar" "1.2.3" "1.2.4"))
                       (init true)) Mp) as (_ & Hp & Hc).
    split; [exact Mp |]. split; [rewrite Hp | rewrite Hc]; reflexivity.
  - destruct (proj2 (malformed_line_local shipped short_choco
                       (Ran (pip_single "foo" "1.2.3" "1.9.9"))
                       (init true)) Mc) as (_ & Hc & Hp).
    split; [exact Mc |]. split; [rewrite Hc | rewrite Hp]; reflexivity.
Defined.

(** C3, as the specification has it, fails for pip: with the command
    missing, the check does not end normally. *)
Lemma missing_pip_raises :
  ~ (pip_update (fst (_check_pip_updates shipped Missing (init true)))
     = false
     /\ snd (_check_pip_updates shipped Missing (init true)) = None).
Proof.
  intros [_ H]. discriminate H.
Qed.

(** C3, amended: with [choco] missing, the choco check returns normally
    and changes nothing; with [pip] missing, the pip check changes nothing
    either, but [FileNotFoundError] leaves it and ends its thread, which
    is all it ends: [_check_for_updates] with both commands missing leaves
    the widget as it was. *)
Theorem missing_command (cfg : Configurables) (w : Widget) :
  _check_choco_updates cfg Missing w = (w, None)
  /\ _check_pip_updates cfg Missing w = (w, Some FileNotFoundError)
  /\ thread (_check_pip_updates cfg Missing) w = w
  /\ _check_for_updates cfg Missing Missing w = w.
Proof.
  repeat split.
Qed.

(** C2, as the specification has it, fails at its first entry: from 1.2.3
    to 1.3.0 the major version does not grow, and the flag is set. *)
Lemma same_major_sets_flag :
  ~ (pip_update
       (fst (_check_pip_updates (no_ignore [])
               (Ran (pip_single "foo" "1.2.3" "1.3.0")) (init true)))
     = false).
Proof.
  vm_compute. discriminate.
Qed.

(** C2, amended: with breaking changes ignored and nothing in the ignore
    sets, a single entry from 1.2.3 to 1.3.0 sets the flag of its
    ecosystem, a single entry from 1.2.3 to 2.0.0 leaves it as it was, and
    a single entry from 1.2.3 to 1.9.9 sets it. *)
Theorem single_entry_checks (hours : list Z) (w : Widget) :
  let cfg := no_ignore hours in
  _check_pip_updates cfg (Ran (pip_single "foo" "1.2.3" "1.3.0")) w
  = (set_pip_update true w, None)
  /\ _check_pip_updates cfg (Ran (pip_single "foo" "1.2.3" "2.0.0")) w
     = (w, None)
  /\ _check_pip_updates cfg (Ran (pip_single "foo" "1.2.3" "1.9.9")) w
     = (set_pip_update true w, None)
  /\ _check_choco_updates cfg (Ran (choco_single "foo" "1.2.3" "1.3.0")) w
     = (set_choco_update true w, None)
  /\ _check_choco_updates cfg (Ran (choco_single "foo" "1.2.3" "2.0.0")) w
     = (w, None)
  /\ _check_choco_updates cfg (Ran (choco_single "foo" "1.2.3" "1.9.9")) w
     = (set_choco_update true w, None).
Proof.
  cbv zeta. repeat split; vm_compute; reflexivity.
Qed.

(** The loop body once the name is known not to be ignored and breaking
    changes are: the pattern guard first, then both major versions. *)
Lemma entry_guarded (ignore : list string) (name version latest : string) :
  str_in name ignore = false ->
  entry ignore true name version latest
  = if Re.match_ version_re version || Re.match_ version_re latest
    then match major version, major latest with
         | Some major_version, Some major_latest =>
             if major_latest >? major_version then Continue else Break
         | _, _ => Raise ValueError
         end
    else Continue.
Proof.
  intros Hn. unfold entry. rewrite Hn.
  destruct (Re.match_ version_re version || Re.match_ version_re latest);
    cbn [negb]; [| reflexivity].
  destruct (major version); [| reflexivity].
  destruct (major latest); reflexivity.
Qed.

(** C10: with breaking changes ignored, an entry whose name is not ignored
    is passed over by the pattern guard only when neither version begins
    as [\d*\.\d*\.\d*], a pattern that accepts empty runs of digits (the
    text of two dots matches it); when one of them does, the major version
    of both is read, and [ValueError] is raised as soon as one of the two
    cannot be read.  So there are four-field lines with a name outside the
    ignore sets on which both checks raise and leave their flag as it was:
    one whose current version has nothing before its first dot, one whose
    current version has no dot, each with a latest version that matches
    the pattern and has the same major version. *)
Theorem lax_guard_then_major (ignore : list string)
    (name version latest : string) :
  str_in name ignore = false ->
  ((Re.match_ version_re version || Re.match_ version_re latest) = false ->
   entry ignore true name version latest = Continue)
  /\ ((Re.match_ version_re version || Re.match_ version_re latest) = true ->
      major version = None \/ major latest = None ->
      entry ignore true name version latest = Raise ValueError)
  /\ (entry ignore true name version latest = Continue ->
      (Re.match_ version_re version || Re.match_ version_re latest) = false
      \/ exists a b,
           major version = Some a /\ major latest = Some b /\ b > a)
  /\ Re.match_ version_re ".." = true
  /\ (exists current newer,
        Py.find "." current = 0
        /\ Re.match_ version_re newer = true
        /\ major newer = Some 0
        /\ str_in "foo" (ignore_pip_packages shipped) = false
        /\ str_in "foo" (ignore_choco_packages shipped) = false
        /\ forall w,
             _check_pip_updates shipped
               (Ran (pip_single "foo" current newer)) w
             = (w, Some ValueError)
             /\ _check_choco_updates shipped
                  (Ran (choco_single "foo" current newer)) w
                = (w, Some ValueError))
  /\ (exists current newer,
        Py.find "." current = -1
        /\ Re.match_ version_re newer = true
        /\ major newer = Py.int current
        /\ forall w,
             _check_pip_updates shipped
               (Ran (pip_single "foo" current newer)) w
             = (w, Some ValueError)
             /\ _check_choco_updates shipped
                  (Ran (choco_single "foo" current newer)) w
                = (w, Some ValueError)).
Proof.
  intros Hn. pose proof (entry_guarded ignore name version latest Hn) as He.
  split; [intros Hg; rewrite He, Hg; reflexivity |].
  split.
  { intros Hg Hm. rewrite He, Hg.
    destruct (major version); [| reflexivity].
    destruct Hm as [Hm | Hm]; [discriminate | rewrite Hm; reflexivity]. }
  split.
  { rewrite He.
    destruct (Re.match_ version_re version || Re.match_ version_re latest);
      [| auto].
    destruct (major version) as [a |]; [| discriminate].
    destruct (major latest) as [b |]; [| discriminate].
    destruct (Z.gtb_spec b a) as [G | G]; [| discriminate].
    intros _. right. exists a, b. repeat split; lia. }
  split; [reflexivity |].
  split.
  - exists ".9.1", "0.9.2".
    do 5 (split; [reflexivity |]).
    intros w. split; vm_compute; reflexivity.
  - exists "7", "7.0.1".
    do 3 (split; [reflexivity |]).
    intros w. split; vm_compute; reflexivity.
Qed.

Lemma lax_guard_then_major_witness :
  str_in "foo" (ignore_pip_packages shipped) = false
  /\ (Re.match_ version_re "v1.2.3" || Re.match_ version_re "1.2.4") = true
  /\ (major "v1.2.3" = None \/ major "1.2.4" = None)
  /\ entry (ignore_pip_packages shipped) true "foo" "v1.2.3" "1.2.4"
     = Raise ValueError.
Proof.
  assert (Hn : str_in "foo" (ignore_pip_packages shipped) = false)
    by reflexivity.
  assert (Hg : (Re.match_ version_re "v1.2.3"
                || Re.match_ version_re "1.2.4") = true) by reflexivity.
  assert (Hm : major "v1.2.3" = None \/ major "1.2.4" = None)
    by (left; reflexivity).
  split; [exact Hn |]. split; [exact Hg |]. split; [exact Hm |].
  exact (proj1 (proj2 (lax_guard_then_major (ignore_pip_packages shipped)
                         "foo" "v1.2.3" "1.2.4" Hn)) Hg Hm).
Defined.

(** ** Further checks of the model *)

(** A latch for one hour fires once over a run of ticks at that hour. *)
Lemma latch_run (h : Z) (n : nat) :
  Spec.latch_checks (Z.eqb h) (repeat h (S n)) Spec.Armed
  = 1%nat :: repeat 0%nat n.
Proof.
  cbn [repeat Spec.latch_checks]. unfold Spec.latch_step at 1.
  rewrite Z.eqb_refl. f_equal.
  induction n as [| n IH]; [reflexivity |].
  cbn [repeat Spec.latch_checks]. unfold Spec.latch_step at 1.
  rewrite Z.eqb_refl, IH. reflexivity.
Qed.

(** The shipped hours are not adjacent, so a loop that ticks in every hour
    keeps them apart. *)
Example shipped_hours_apart (ticks : list tick) :
  steady (map now_hour ticks) = true ->
  separated (hours_to_search_for_upgrades shipped) (map now_hour ticks)
  = true.
Proof. apply steady_separated. reflexivity. Qed.

(** The one lock shows there too when the loop is suspended from one
    configured hour to the next. *)
Example shipped_hours_share_lock :
  check_counts shipped [at_hour 22; at_hour 4] (init true) = [1; 0]%nat.
Proof. reflexivity. Qed.

(** The examples of C10 at the level of one entry. *)
Example entry_examples :
  entry [] true "foo" ".9.1" "0.9.2" = Raise ValueError
  /\ entry [] true "foo" "7" "7.0.1" = Raise ValueError
  /\ entry [] true "foo" "2024" "2025.1.0" = Continue
  /\ entry [] true "foo" "1.2.3" "1.3.0" = Break
  /\ entry [] true "foo" "1.0rc1" "1.0rc2" = Continue
  /\ entry ["foo"] true "foo" "1.2.3" "1.2.4" = Continue
  /\ entry [] false "foo" "anything" "else" = Break.
Proof. repeat split. Qed.

(** ** More on the update checks *)

Section Scans.

Variable cfg : Configurables.

Lemma pip_loop_row (line : string) (rest : list string) (w : Widget) :
  pip_loop cfg (line :: rest) w
  = match row_verdict Py.split_ws (ignore_pip_packages cfg)
            (pip_ignore_breaking_changes cfg) line with
    | None => (w, Some ValueError)
    | Some Continue => pip_loop cfg rest w
    | Some Break => (set_pip_update true w, None)
    | Some (Raise e) => (w, Some e)
    end.
Proof.
  cbn [pip_loop]. unfold row_verdict.
  destruct (Py.split_ws line) as [| n [| v [| l [| x [| y fs]]]]];
    reflexivity.
Qed.

Lemma choco_loop_row (line : string) (rest : list string) (w : Widget) :
  choco_loop cfg (line :: rest) w
  = match row_verdict (Py.split_on "|") (ignore_choco_packages cfg)
            (choco_ignore_breaking_changes cfg) line with
    | None => (w, Some ValueError)
    | Some Continue => choco_loop cfg rest w
    | Some Break => (set_choco_update true w, None)
    | Some (Raise e) => (w, Some e)
    end.
Proof.
  cbn [choco_loop]. unfold row_verdict.
  destruct (Py.split_on "|" line) as [| n [| v [| l [| x [| y fs]]]]];
    reflexivity.
Qed.

Lemma ignored_row (split : string -> list string) (ignore : list string)
    (b : bool) (line : string) :
  match row_name split line with
  | Some name => str_in name ignore
  | None => false
  end = true ->
  row_verdict split ignore b line = Some Continue.
Proof.
  unfold row_name, row_verdict.
  destruct (split line) as [| n [| v [| l [| x [| y fs]]]]];
    try discriminate.
  intros H. unfold entry. rewrite H. reflexivity.
Qed.

Lemma pip_loop_ignored (rows : list string) (w : Widget) :
  all_ignored Py.split_ws (ignore_pip_packages cfg) rows = true ->
  pip_loop cfg rows w = (w, None).
Proof.
  unfold all_ignored.
  induction rows as [| line rest IH]; [reflexivity |].
  cbn [forallb]. intros H. apply andb_prop in H as [H1 H2].
  rewrite pip_loop_row, (ignored_row _ _ _ _ H1). auto.
Qed.

Lemma choco_loop_ignored (rows : list string) (w : Widget) :
  all_ignored (Py.split_on "|") (ignore_choco_packages cfg) rows = true ->
  choco_loop cfg rows w = (w, None).
Proof.
  unfold all_ignored.
  induction rows as [| line rest IH]; [reflexivity |].
  cbn [forallb]. intros H. apply andb_prop in H as [H1 H2].
  rewrite choco_loop_row, (ignored_row _ _ _ _ H1). auto.
Qed.

Lemma pip_loop_passes (pre rest : list string) (w : Widget) :
  forallb (fun l => passed_over
                      (row_verdict Py.split_ws (ignore_pip_packages cfg)
                         (pip_ignore_breaking_changes cfg) l)) pre = true ->
  pip_loop cfg (pre ++ rest) w = pip_loop cfg rest w.
Proof.
  induction pre as [| line pre IH]; [reflexivity |].
  cbn [forallb]. intros H. apply andb_prop in H as [H1 H2].
  rewrite <- app_comm_cons, pip_loop_row.
  destruct (row_verdict _ _ _ line) as [[| |] |]; try discriminate. auto.
Qed.

Lemma choco_loop_passes (pre rest : list string) (w : Widget) :
  forallb (fun l => passed_over
                      (row_verdict (Py.split_on "|")
                         (ignore_choco_packages cfg)
                         (choco_ignore_breaking_changes cfg) l)) pre
  = true ->
  choco_loop cfg (pre ++ rest) w = choco_loop cfg rest w.
Proof.
  induction pre as [| line pre IH]; [reflexivity |].
  cbn [forallb]. intros H. apply andb_prop in H as [H1 H2].
  rewrite <- app_comm_cons, choco_loop_row.
  destruct (row_verdict _ _ _ line) as [[| |] |]; try discriminate. auto.
Qed.

End Scans.

(** X1: an output in which every row carries an ignored name ends the
    check normally with the widget as it was, whatever stands in the
    version fields: an ignored name is passed over before a version is
    looked at. *)
Theorem ignored_names_never_count (cfg : Configurables) (out : string)
    (w : Widget) :
  (all_ignored Py.split_ws (ignore_pip_packages cfg)
     (skipn 2 (Py.splitlines out)) = true ->
   _check_pip_updates cfg (Ran out) w = (w, None))
  /\ (all_ignored (Py.split_on "|") (ignore_choco_packages cfg)
        (Py.splitlines out) = true ->
      _check_choco_updates cfg (Ran out) w = (w, None)).
Proof.
  split; intros H.
  - apply pip_loop_ignored. exact H.
  - apply choco_loop_ignored. exact H.
Qed.

Lemma ignored_names_never_count_witness :
  (all_ignored Py.split_ws (ignore_pip_packages shipped)
     (skipn 2 (Py.splitlines (pip_single "jedi" "old" "9.x"))) = true
   /\ _check_pip_updates shipped (Ran (pip_single "jedi" "old" "9.x"))
        (init true) = (init true, None))
  /\ (all_ignored (Py.split_on "|") (ignore_choco_packages shipped)
        (Py.splitlines (choco_single "msys2" "old" "9.x")) = true
      /\ _check_choco_updates shipped (Ran (choco_single "msys2" "old" "9.x"))
           (init true) = (init true, None)).
Proof.
  assert (Hp : all_ignored Py.split_ws (ignore_pip_packages shipped)
                 (skipn 2 (Py.splitlines (pip_single "jedi" "old" "9.x")))
               = true) by reflexivity.
  assert (Hc : all_ignored (Py.split_on "|") (ignore_choco_packages shipped)
                 (Py.splitlines (choco_single "msys2" "old" "9.x")) = true)
    by reflexivity.
  split.
  - split; [exact Hp |].
    exact (proj1 (ignored_names_never_count shipped _ (init true)) Hp).
  - split; [exact Hc |].
    exact (proj2 (ignored_names_never_count shipped _ (init true)) Hc).
Defined.

(** X2: a scan stops at the first row that qualifies: once the rows before
    it have been passed over, the flag is set and the check ends normally,
    and the rows after it are never read, so that not even a row that does
    not unpack among them is an error. *)
Theorem scan_stops_at_first_hit (cfg : Configurables)
    (pre : list string) (line : string) (post : list string) (w : Widget) :
  (forallb (fun l => passed_over
                       (row_verdict Py.split_ws (ignore_pip_packages cfg)
                          (pip_ignore_breaking_changes cfg) l)) pre = true ->
   qualifies (row_verdict Py.split_ws (ignore_pip_packages cfg)
                (pip_ignore_breaking_changes cfg) line) = true ->
   pip_loop cfg (pre ++ line :: post) w = (set_pip_update true w, None))
  /\ (forallb (fun l => passed_over
                          (row_verdict (Py.split_on "|")
                             (ignore_choco_packages cfg)
                             (choco_ignore_breaking_changes cfg) l)) pre
      = true ->
      qualifies (row_verdict (Py.split_on "|") (ignore_choco_packages cfg)
                   (choco_ignore_breaking_changes cfg) line) = true ->
      choco_loop cfg (pre ++ line :: post) w
      = (set_choco_update true w, None)).
Proof.
  split; intros Hpre Hq.
  - rewrite pip_loop_passes by exact Hpre. rewrite pip_loop_row.
    destruct (row_verdict _ _ _ line) as [[| |] |]; try discriminate.
    reflexivity.
  - rewrite choco_loop_passes by exact Hpre. rewrite choco_loop_row.
    destruct (row_verdict _ _ _ line) as [[| |] |]; try discriminate.
    reflexivity.
Qed.

Lemma scan_stops_at_first_hit_witness :
  pip_loop shipped
    (["zipp 1.0.0 1.0.1 wheel"; "foo 1.2.3 2.0.0 wheel"]
     ++ "bar 1.2.3 1.2.4 wheel" :: ["not a row"; "baz 1 2 wheel"])
    (init true)
  = (set_pip_update true (init true), None)
  /\ choco_loop shipped
       (["msys2|1.0.0|1.0.1|false"; "foo|1.2.3|2.0.0|false"]
        ++ "bar|1.2.3|1.2.4|false" :: ["not a row"; "baz|1|2|false"])
       (init true)
     = (set_choco_update true (init true), None).
Proof.
  split.
  - apply (proj1 (scan_stops_at_first_hit shipped _ _ _ (init true)));
      reflexivity.
  - apply (proj2 (scan_stops_at_first_hit shipped _ _ _ (init true)));
      reflexivity.
Defined.

(** X3: a check decides by the output alone: run again on the same output
    it changes nothing more; the two worker threads may end in either
    order; and a check never clears a flag or touches the theme flag, the
    font cache or the lock. *)
Theorem check_idempotent (cfg : Configurables) (choco pip : popen)
    (w : Widget) :
  let w' := _check_for_updates cfg choco pip w in
  _check_for_updates cfg choco pip w' = w'
  /\ w' = thread (_check_choco_updates cfg choco)
            (thread (_check_pip_updates cfg pip) w)
  /\ write_in_black w' = write_in_black w
  /\ fonts w' = fonts w
  /\ lock w' = lock w
  /\ pip_update w' = pip_update w || pip_update w'
  /\ choco_update w' = choco_update w || choco_update w'.
Proof.
  cbv zeta. unfold _check_for_updates.
  destruct (pip_worker_shape cfg pip) as (bp & Hp).
  destruct (choco_worker_shape cfg choco) as (bc & Hc).
  rewrite !Hp, !Hc.
  destruct w as [c p b f l]; destruct bp, bc, c, p; repeat split.
Qed.

(** ** Reading versions and rows *)

Section Text.

Lemma rev_string_involutive (s : string) :
  Py.rev_string (Py.rev_string s) = s.
Proof.
  unfold Py.rev_string.
  rewrite list_ascii_of_string_of_list_ascii, rev_involutive.
  apply string_of_list_ascii_of_string.
Qed.

Lemma string_of_list_app (l l' : list ascii) :
  string_of_list_ascii (l ++ l')
  = string_of_list_ascii l ++ string_of_list_ascii l'.
Proof. induction l as [| c l IH]; cbn; [| rewrite IH]; reflexivity. Qed.

Lemma list_of_string_app (s t : string) :
  list_ascii_of_string (s ++ t)
  = (list_ascii_of_string s ++ list_ascii_of_string t)%list.
Proof. induction s as [| c s IH]; cbn; [| rewrite IH]; reflexivity. Qed.

Lemma rev_string_cons (c : ascii) (s : string) :
  Py.rev_string (String c s) = Py.rev_string s ++ String c EmptyString.
Proof.
  unfold Py.rev_string. cbn. apply string_of_list_app.
Qed.

Lemma all_digits_cons (c : ascii) (s : string) :
  all_digits (String c s) <-> Py.isdigit c = true /\ all_digits s.
Proof.
  unfold all_digits. cbn. split.
  - inversion 1; auto.
  - intros [H1 H2]. constructor; auto.
Qed.

Lemma all_digits_rev (s : string) :
  all_digits s -> all_digits (Py.rev_string s).
Proof.
  unfold all_digits, Py.rev_string.
  rewrite list_ascii_of_string_of_list_ascii.
  apply Forall_rev.
Qed.

Lemma digit_not_int_space (c : ascii) :
  Py.isdigit c = true -> Py.int_space c = false.
Proof.
  unfold Py.isdigit, Py.int_space. cbv zeta. intros H.
  apply andb_prop in H as [H1 H2].
  apply Nat.leb_le in H1, H2.
  repeat match goal with
         | |- context [(?a <=? ?b)%nat] => destruct (Nat.leb_spec a b)
         | |- context [(?a =? ?b)%nat] => destruct (Nat.eqb_spec a b)
         end; cbn; try reflexivity; lia.
Qed.

Lemma digit_not_dot (c : ascii) :
  Py.isdigit c = true -> Ascii.eqb c "." = false.
Proof.
  intros H. destruct (Ascii.eqb_spec c "."); [subst; discriminate | auto].
Qed.

Lemma int_lstrip_digits (s : string) :
  all_digits s -> Py.int_lstrip s = s.
Proof.
  destruct s as [| c s]; [reflexivity |].
  intros H. apply all_digits_cons in H as [H _].
  cbn. rewrite (digit_not_int_space c H). reflexivity.
Qed.

Lemma int_strip_digits (s : string) : all_digits s -> Py.int_strip s = s.
Proof.
  intros H. unfold Py.int_strip.
  rewrite (int_lstrip_digits s H).
  rewrite (int_lstrip_digits _ (all_digits_rev s H)).
  apply rev_string_involutive.
Qed.

Lemma count_digits_all (s : string) :
  all_digits s -> Py.count_digits s = Py.len s.
Proof.
  unfold Py.len. induction s as [| c s IH]; [reflexivity |].
  intros H. apply all_digits_cons in H as [Hc Hs].
  cbn [Py.count_digits String.length]. rewrite Hc, (IH Hs). lia.
Qed.

Lemma int_digits_value (s : string) :
  all_digits s ->
  forall prev acc,
    (s <> EmptyString \/ prev = true) ->
    Py.int_digits s prev acc
    = Some (fold_left (fun a c => 10 * a + Py.digit_val c)
              (list_ascii_of_string s) acc).
Proof.
  induction s as [| c s IH]; intros H prev acc Hne.
  - destruct Hne as [Hne | ->]; [contradiction | reflexivity].
  - apply all_digits_cons in H as [Hc Hs].
    cbn [Py.int_digits list_ascii_of_string fold_left]. rewrite Hc.
    apply IH; auto.
Qed.

(** [int] reads a run of digits as its decimal value, and rejects the
    empty text and a run of more than 4300 digits. *)
Lemma int_of_digits (s : string) :
  all_digits s -> Py.int s = run_value s.
Proof.
  intros H. unfold Py.int, run_value. rewrite (int_strip_digits s H).
  destruct s as [| c s]; [reflexivity |].
  pose proof H as H'. apply all_digits_cons in H' as [Hc _].
  assert (N1 : (Py.code c =? 45)%nat = false).
  { apply Nat.eqb_neq. unfold Py.isdigit in Hc. cbv zeta in Hc.
    apply andb_prop in Hc as [H1 _]. apply Nat.leb_le in H1. lia. }
  assert (N2 : (Py.code c =? 43)%nat = false).
  { apply Nat.eqb_neq. unfold Py.isdigit in Hc. cbv zeta in Hc.
    apply andb_prop in Hc as [H1 _]. apply Nat.leb_le in H1. lia. }
  rewrite N1, N2. cbn [String.eqb].
  unfold Py.int_body. rewrite (count_digits_all _ H).
  destruct (Py.max_str_digits <? Py.len (String c s)); [reflexivity |].
  apply int_digits_value; [exact H | left; discriminate].
Qed.

Lemma find_from_digits (d rest : string) (i : Z) :
  all_digits d ->
  Py.find_from "." (d ++ String "." rest) i = i + Py.len d.
Proof.
  revert i. induction d as [| c d IH]; intros i H.
  - cbn. unfold Py.len. cbn. lia.
  - apply all_digits_cons in H as [Hc Hd].
    cbn [append Py.find_from]. rewrite (digit_not_dot c Hc), IH by exact Hd.
    unfold Py.len. cbn [String.length]. lia.
Qed.

Lemma find_from_none (s : string) (i : Z) :
  count_char "." s = 0%nat -> Py.find_from "." s i = -1.
Proof.
  revert i. induction s as [| c s IH]; intros i H; [reflexivity |].
  cbn [count_char] in H. cbn [Py.find_from].
  destruct (Ascii.eqb c "."); [discriminate | apply IH; exact H].
Qed.

Lemma substring_prefix (s t : string) :
  substring 0 (String.length s) (s ++ t) = s.
Proof.
  induction s as [| c s IH]; cbn.
  - destruct t; reflexivity.
  - rewrite IH. reflexivity.
Qed.

Lemma length_app_string (s t : string) :
  String.length (s ++ t) = (String.length s + String.length t)%nat.
Proof. induction s as [| c s IH]; cbn; [| rewrite IH]; reflexivity. Qed.

Lemma slice_to_prefix (s t : string) :
  Py.slice_to (s ++ t) (Py.len s) = s.
Proof.
  unfold Py.slice_to, Py.len. rewrite length_app_string.
  assert (H : (Z.of_nat (String.length s) <? 0) = false)
    by (apply Z.ltb_ge; lia).
  rewrite H.
  replace (Z.to_nat
             (Z.min (Z.of_nat (String.length s))
                (Z.of_nat (String.length s + String.length t))))
    with (String.length s) by lia.
  apply substring_prefix.
Qed.

Lemma slice_to_minus_one (s : string) (c : ascii) :
  Py.slice_to (s ++ String c EmptyString) (-1) = s.
Proof.
  unfold Py.slice_to, Py.len. rewrite length_app_string.
  cbn [Z.ltb Z.compare String.length].
  replace (Z.to_nat (Z.max 0 (Z.of_nat (String.length s + 1) + -1)))
    with (String.length s) by lia.
  apply substring_prefix.
Qed.

Lemma count_char_app (c : ascii) (s t : string) :
  count_char c (s ++ t) = (count_char c s + count_char c t)%nat.
Proof.
  induction s as [| d s IH]; cbn; [| rewrite IH; lia]. reflexivity.
Qed.

Lemma count_dot_digits (s : string) :
  all_digits s -> count_char "." s = 0%nat.
Proof.
  induction s as [| c s IH]; [reflexivity |].
  intros H. apply all_digits_cons in H as [Hc Hs].
  cbn. rewrite (digit_not_dot c Hc), IH by exact Hs. reflexivity.
Qed.

End Text.

(** The major version of a text that starts with digits and a dot is what
    [int] makes of those digits. *)
Lemma major_dotted (d rest : string) :
  all_digits d -> major (d ++ String "." rest) = run_value d.
Proof.
  intros H. unfold major, Py.find.
  rewrite (find_from_digits d rest 0 H), Z.add_0_l, slice_to_prefix.
  apply int_of_digits. exact H.
Qed.

(** X4: for two versions that begin with a run of digits, a dot, a run of
    digits and a dot, an entry whose name is not ignored is decided by the
    two first runs alone.  When [int] reads both, the entry qualifies
    exactly when the first number of the latest version is not greater
    than the first number of the current one: an equal or a smaller major
    version sets the flag, a greater one is passed over.  When one of the
    two runs is empty or has more than 4300 digits, [int] refuses it and
    the entry raises [ValueError]. *)
Theorem numbered_versions_compare (ignore : list string)
    (name a b r a' b' r' : string) :
  str_in name ignore = false ->
  all_digits a -> all_digits b -> all_digits a' -> all_digits b' ->
  entry ignore true name (a ++ "." ++ b ++ "." ++ r)
    (a' ++ "." ++ b' ++ "." ++ r')
  = match run_value a, run_value a' with
    | Some major_version, Some major_latest =>
        if major_latest >? major_version then Continue else Break
    | _, _ => Raise ValueError
    end.
Proof.
  intros Hn Ha Hb Ha' Hb'.
  rewrite (entry_guarded _ _ _ _ Hn).
  assert (M : Re.match_ version_re (a ++ "." ++ b ++ "." ++ r) = true).
  { apply version_re_match. exists a, b, r. auto. }
  rewrite M. cbn [orb].
  change (a ++ "." ++ b ++ "." ++ r) with (a ++ String "." (b ++ "." ++ r)).
  change (a' ++ "." ++ b' ++ "." ++ r')
    with (a' ++ String "." (b' ++ "." ++ r')).
  rewrite (major_dotted a _ Ha), (major_dotted a' _ Ha').
  reflexivity.
Qed.

Lemma numbered_versions_compare_witness :
  str_in "foo" (ignore_pip_packages shipped) = false
  /\ all_digits "10" /\ all_digits "4" /\ all_digits "9" /\ all_digits "0"
  /\ entry (ignore_pip_packages shipped) true "foo"
       ("10" ++ "." ++ "4" ++ "." ++ "2rc1")
       ("9" ++ "." ++ "0" ++ "." ++ "0")
     = Break.
Proof.
  assert (Hn : str_in "foo" (ignore_pip_packages shipped) = false)
    by reflexivity.
  assert (H10 : all_digits "10") by repeat constructor.
  assert (H4 : all_digits "4") by repeat constructor.
  assert (H9 : all_digits "9") by repeat constructor.
  assert (H0 : all_digits "0") by repeat constructor.
  repeat (split; [assumption |]).
  rewrite (numbered_versions_compare (ignore_pip_packages shipped)
             "foo" "10" "4" "2rc1" "9" "0" "0" Hn H10 H4 H9 H0).
  reflexivity.
Defined.

(** X5: a version without a dot loses its last character before it is
    read as a number, because [find] answers -1: a run of digits followed
    by one more digit is read as [int] reads the run without that digit,
    so as its value when the run has from 1 to 4300 digits, and is refused
    when the run is empty, which is the case of a single digit, or longer.
    [int] itself reads the whole text as ten times that value plus the
    last digit, or refuses it when it has more than 4300 digits. *)
Theorem dotless_major (d : string) (c : ascii) :
  all_digits d -> Py.isdigit c = true ->
  major (d ++ String c EmptyString) = run_value d
  /\ Py.int (d ++ String c EmptyString)
     = if Py.max_str_digits <? Py.len d + 1 then None
       else Some (10 * digits_value d + Py.digit_val c).
Proof.
  intros Hd Hc. split.
  - unfold major, Py.find. rewrite find_from_none.
    + rewrite slice_to_minus_one. apply int_of_digits. exact Hd.
    + rewrite count_char_app, (count_dot_digits d Hd). cbn.
      rewrite (digit_not_dot c Hc). reflexivity.
  - assert (H : all_digits (d ++ String c EmptyString)).
    { unfold all_digits in *. rewrite list_of_string_app.
      apply Forall_app. split; [exact Hd | repeat constructor; exact Hc]. }
    rewrite (int_of_digits _ H). unfold run_value.
    assert (E : String.eqb (d ++ String c EmptyString) EmptyString = false)
      by (destruct d; reflexivity).
    assert (L : Py.len (d ++ String c EmptyString) = Py.len d + 1).
    { unfold Py.len. rewrite length_app_string. cbn [String.length]. lia. }
    rewrite E, L. unfold digits_value.
    rewrite list_of_string_app, fold_left_app. reflexivity.
Qed.

Lemma dotless_major_witness :
  all_digits "202" /\ Py.isdigit "4" = true
  /\ major ("202" ++ String "4" EmptyString) = Some 202
  /\ Py.int ("202" ++ String "4" EmptyString) = Some 2024.
Proof.
  assert (Hd : all_digits "202") by repeat constructor.
  assert (Hc : Py.isdigit "4" = true) by reflexivity.
  split; [exact Hd |]. split; [exact Hc |].
  destruct (dotless_major "202" "4" Hd Hc) as [M I].
  split; [rewrite M | rewrite I]; reflexivity.
Defined.

(** ** The shape of rows and of the pip header *)

Section Splitting.

Variable sep : ascii.

Lemma split_on_aux_length (s cur : string) :
  List.length (Py.split_on_aux sep s cur) = S (count_char sep s).
Proof.
  revert cur. induction s as [| c s IH]; intros cur; [reflexivity |].
  cbn [Py.split_on_aux count_char].
  destruct (Ascii.eqb c sep); cbn [List.length]; rewrite IH; reflexivity.
Qed.

Lemma split_on_aux_join (s cur : string) :
  join (String sep EmptyString) (Py.split_on_aux sep s cur)
  = Py.rev_string cur ++ s.
Proof.
  revert cur. induction s as [| c s IH]; intros cur.
  - cbn. rewrite app_empty_r. reflexivity.
  - cbn [Py.split_on_aux].
    destruct (Ascii.eqb_spec c sep) as [-> | N].
    + specialize (IH EmptyString).
      destruct (Py.split_on_aux sep s EmptyString) as [| f fs] eqn:E.
      * pose proof (split_on_aux_length s EmptyString) as L.
        rewrite E in L. discriminate.
      * cbn [join]. cbn [join] in IH. rewrite IH. reflexivity.
    + rewrite IH, rev_string_cons, app_string_assoc. reflexivity.
Qed.

Lemma split_on_aux_last (x cur : string) :
  count_char sep x = 0%nat ->
  Py.split_on_aux sep x cur = [Py.rev_string cur ++ x].
Proof.
  revert cur. induction x as [| c x IH]; intros cur H.
  - cbn. rewrite app_empty_r. reflexivity.
  - cbn [count_char] in H. cbn [Py.split_on_aux].
    destruct (Ascii.eqb c sep); [discriminate |].
    rewrite IH by exact H.
    rewrite rev_string_cons, app_string_assoc. reflexivity.
Qed.

Lemma split_on_aux_field (f rest cur : string) :
  count_char sep f = 0%nat ->
  Py.split_on_aux sep (f ++ String sep rest) cur
  = (Py.rev_string cur ++ f) :: Py.split_on_aux sep rest EmptyString.
Proof.
  revert cur. induction f as [| c f IH]; intros cur H.
  - cbn. rewrite Ascii.eqb_refl, app_empty_r. reflexivity.
  - cbn [count_char] in H. cbn [append Py.split_on_aux].
    destruct (Ascii.eqb c sep); [discriminate |].
    rewrite IH by exact H.
    rewrite rev_string_cons, app_string_assoc. reflexivity.
Qed.

End Splitting.

(** X6: the choco scan takes a row by its bars alone.  A row unpacks
    exactly when it has three bars, and then its fields, taken as they
    stand and joined by bars, are the row; a row with another number of
    bars, the empty row among them, ends the check with [ValueError] when
    the scan reaches it; and four texts without a bar, joined by bars, are
    read back as they were written. *)
Theorem choco_row_by_bars (cfg : Configurables) (line : string) :
  ((exists n v l x, Py.split_on "|" line = [n; v; l; x])
   <-> count_char "|" line = 3%nat)
  /\ (forall n v l x,
        Py.split_on "|" line = [n; v; l; x] ->
        line = n ++ "|" ++ v ++ "|" ++ l ++ "|" ++ x)
  /\ (count_char "|" line <> 3%nat ->
      forall rest w, choco_loop cfg (line :: rest) w = (w, Some ValueError))
  /\ (forall n v l x,
        count_char "|" n = 0%nat -> count_char "|" v = 0%nat ->
        count_char "|" l = 0%nat -> count_char "|" x = 0%nat ->
        Py.split_on "|" (n ++ "|" ++ v ++ "|" ++ l ++ "|" ++ x)
        = [n; v; l; x]).
Proof.
  pose proof (split_on_aux_length "|" line EmptyString) as L.
  pose proof (split_on_aux_join "|" line EmptyString) as J.
  change (Py.split_on_aux "|" line EmptyString)
    with (Py.split_on "|" line) in L, J.
  change (Py.rev_string EmptyString ++ line) with line in J.
  split; [| split; [| split]].
  - split.
    + intros (n & v & l & x & E). rewrite E in L. cbn in L. lia.
    + intros C. rewrite C in L.
      destruct (Py.split_on "|" line) as [| n [| v [| l [| x [| y fs]]]]];
        try discriminate.
      exists n, v, l, x. reflexivity.
  - intros n v l x E. rewrite E in J. rewrite <- J. reflexivity.
  - intros C rest w. rewrite choco_loop_row. unfold row_verdict.
    destruct (Py.split_on "|" line) as [| n [| v [| l [| x [| y fs]]]]];
      try reflexivity.
    cbn in L. lia.
  - intros n v l x Hn Hv Hl Hx. unfold Py.split_on.
    change (n ++ "|" ++ v ++ "|" ++ l ++ "|" ++ x)
      with (n ++ String "|" (v ++ String "|" (l ++ String "|" x))).
    rewrite !split_on_aux_field by assumption.
    rewrite split_on_aux_last by assumption. reflexivity.
Qed.

Lemma choco_row_by_bars_witness :
  count_char "|" "foo||1.2.3" <> 3%nat
  /\ choco_loop shipped ["foo||1.2.3"; "bar|1|2|false"] (init true)
     = (init true, Some ValueError)
  /\ Py.split_on "|"
       ("foo" ++ "|" ++ EmptyString ++ "|" ++ " 1.0" ++ "|" ++ "false")
     = ["foo"; EmptyString; " 1.0"; "false"].
Proof.
  assert (C : count_char "|" "foo||1.2.3" <> 3%nat) by discriminate.
  split; [exact C |]. split.
  - exact (proj1 (proj2 (proj2 (choco_row_by_bars shipped "foo||1.2.3"))) C
             ["bar|1|2|false"] (init true)).
  - apply (proj2 (proj2 (proj2 (choco_row_by_bars shipped EmptyString))));
      reflexivity.
Defined.

Lemma splitlines_aux_line (l s cur : string) (started : bool) :
  no_linebreak l = true ->
  Py.splitlines_aux (l ++ nl ++ s) cur started
  = (Py.rev_string cur ++ l) :: Py.splitlines s.
Proof.
  revert cur started. induction l as [| c l IH]; intros cur started H.
  - rewrite app_empty_r. unfold nl. cbn [append Py.splitlines_aux].
    change (Py.islinebreak "010") with true. cbv iota.
    destruct s as [| c' s']; reflexivity.
  - cbn [no_linebreak list_ascii_of_string forallb] in H.
    unfold no_linebreak in IH.
    apply andb_prop in H as [Hc Hl]. apply negb_true_iff in Hc.
    cbn [append Py.splitlines_aux]. rewrite Hc.
    rewrite IH by exact Hl.
    rewrite rev_string_cons, app_string_assoc. reflexivity.
Qed.

Lemma split_ws_aux_blank (s : string) :
  all_space s = true -> Py.split_ws_aux s EmptyString false = [].
Proof.
  unfold all_space. induction s as [| c s IH]; [reflexivity |].
  cbn [list_ascii_of_string forallb Py.split_ws_aux]. intros H.
  apply andb_prop in H as [Hc Hs]. rewrite Hc. auto.
Qed.

(** X7: the pip check drops the first two lines of the output unread,
    whatever they hold, and scans the rest; an output of at most two lines
    has no rows and ends the check normally with the widget as it was. *)
Theorem pip_header_dropped (cfg : Configurables) (h1 h2 body out : string)
    (w : Widget) :
  (no_linebreak h1 = true -> no_linebreak h2 = true ->
   _check_pip_updates cfg (Ran (h1 ++ nl ++ h2 ++ nl ++ body)) w
   = pip_loop cfg (Py.splitlines body) w)
  /\ ((List.length (Py.splitlines out) <= 2)%nat ->
      _check_pip_updates cfg (Ran out) w = (w, None)).
Proof.
  split.
  - intros H1 H2. unfold _check_pip_updates, Py.splitlines.
    rewrite (splitlines_aux_line h1 _ EmptyString false H1).
    unfold Py.splitlines.
    rewrite (splitlines_aux_line h2 _ EmptyString false H2).
    reflexivity.
  - intros L. unfold _check_pip_updates.
    destruct (Py.splitlines out) as [| a [| b [| c ls]]];
      try reflexivity.
    cbn in L. lia.
Qed.

Lemma pip_header_dropped_witness :
  no_linebreak "one two three" = true /\ no_linebreak EmptyString = true
  /\ _check_pip_updates shipped
       (Ran ("one two three" ++ nl ++ EmptyString ++ nl
             ++ "foo 1.2.3 1.2.4 wheel"))
       (init true)
     = (set_pip_update true (init true), None)
  /\ (List.length (Py.splitlines pip_header) <= 2)%nat
  /\ _check_pip_updates shipped (Ran pip_header) (init true)
     = (init true, None).
Proof.
  assert (H1 : no_linebreak "one two three" = true) by reflexivity.
  assert (H2 : no_linebreak EmptyString = true) by reflexivity.
  assert (L : (List.length (Py.splitlines pip_header) <= 2)%nat)
    by (vm_compute; lia).
  split; [exact H1 |]. split; [exact H2 |]. split; [| split; [exact L |]].
  - rewrite (proj1 (pip_header_dropped shipped "one two three" EmptyString
                      "foo 1.2.3 1.2.4 wheel" EmptyString (init true))
               H1 H2).
    reflexivity.
  - exact (proj2 (pip_header_dropped shipped EmptyString EmptyString
                    EmptyString pip_header (init true)) L).
Defined.

(** X8: a pip row of white space only, the empty row among them, has no
    fields: when the scan reaches it the check ends with [ValueError] and
    the flag is left as it was. *)
Theorem blank_pip_row_raises (cfg : Configurables) (line : string)
    (rest : list string) (w : Widget) :
  all_space line = true ->
  pip_loop cfg (line :: rest) w = (w, Some ValueError).
Proof.
  intros H. cbn [pip_loop]. unfold Py.split_ws.
  rewrite (split_ws_aux_blank line H). reflexivity.
Qed.

Lemma blank_pip_row_raises_witness :
  all_space "   " = true
  /\ pip_loop shipped ["   "; "foo 1.2.3 1.2.4 wheel"] (init true)
     = (init true, Some ValueError).
Proof.
  assert (H : all_space "   " = true) by reflexivity.
  split; [exact H |].
  exact (blank_pip_row_raises shipped "   " ["foo 1.2.3 1.2.4 wheel"]
           (init true) H).
Defined.

(** ** More on the loop *)

Lemma list_sum_cons (n : nat) (l : list nat) :
  list_sum (n :: l) = (n + list_sum l)%nat.
Proof. reflexivity. Qed.

Section LatchCounts.

Variable member : Z -> bool.

Lemma latch_checks_bound (hours : list Z) :
  forall s,
    (list_sum (Spec.latch_checks member hours s)
     + (match s with Spec.Fired => 1 | Spec.Armed => 0 end)
     <= List.length (filter (fun h => negb (member h)) hours) + 1)%nat.
Proof.
  induction hours as [| h rest IH]; intros s.
  - destruct s; cbn; lia.
  - cbn [Spec.latch_checks filter]. unfold Spec.latch_step.
    destruct (member h); cbn [negb].
    + specialize (IH Spec.Fired). cbv beta iota in IH.
      destruct s; cbv beta iota zeta; rewrite list_sum_cons; lia.
    + specialize (IH Spec.Armed). cbv beta iota in IH.
      cbv beta iota zeta. rewrite list_sum_cons. cbn [List.length].
      destruct s; lia.
Qed.

Lemma latch_checks_fired (hours : list Z) :
  forallb member hours = true ->
  list_sum (Spec.latch_checks member hours Spec.Fired) = 0%nat.
Proof.
  induction hours as [| h rest IH]; [reflexivity |].
  cbn [forallb Spec.latch_checks]. unfold Spec.latch_step.
  intros H. apply andb_prop in H as [Hh Hr]. rewrite Hh.
  rewrite list_sum_cons, IH by exact Hr. reflexivity.
Qed.

Lemma latch_checks_fired_all (hours : list Z) :
  forallb member hours = true ->
  Spec.latch_checks member hours Spec.Fired
  = repeat 0%nat (List.length hours).
Proof.
  induction hours as [| h rest IH]; [reflexivity |].
  cbn [forallb Spec.latch_checks List.length repeat].
  unfold Spec.latch_step.
  intros H. apply andb_prop in H as [Hh Hr]. rewrite Hh, (IH Hr).
  reflexivity.
Qed.

Lemma latch_checks_none (hours : list Z) :
  (forall h, member h = false) ->
  forall s,
    Spec.latch_checks member hours s
    = repeat 0%nat (List.length hours).
Proof.
  intros Hm. induction hours as [| h rest IH]; intros s; [reflexivity |].
  cbn [Spec.latch_checks List.length repeat]. unfold Spec.latch_step.
  rewrite Hm, IH. reflexivity.
Qed.

End LatchCounts.

Lemma outside_filter (cfg : Configurables) (ticks : list tick) :
  outside cfg ticks
  = List.length
      (filter (fun h => negb (int_in h (hours_to_search_for_upgrades cfg)))
         (map now_hour ticks)).
Proof.
  unfold outside. induction ticks as [| t rest IH]; [reflexivity |].
  cbn [filter map].
  destruct (int_in (now_hour t) (hours_to_search_for_upgrades cfg));
    cbn [negb List.length]; rewrite IH; reflexivity.
Qed.

(** X9: over a whole run the loop calls [_check_for_updates] at most once
    more than it sees ticks at hours that are not configured, and not even
    that once when it starts locked; when every tick falls in a configured
    hour, as it does when all hours are configured, the loop calls it at
    its first iteration, if it does not start locked, and never again. *)
Theorem calls_bounded (cfg : Configurables) (ticks : list tick)
    (w : Widget) :
  (calls cfg ticks w + Nat.b2n (lock w) <= outside cfg ticks + 1)%nat
  /\ (outside cfg ticks = 0%nat ->
      calls cfg ticks w
      = (if lock w then 0%nat else Nat.min 1 (List.length ticks))
      /\ check_counts cfg ticks w
         = match ticks with
           | [] => []
           | _ :: rest =>
               (if lock w then 0%nat else 1%nat)
               :: repeat 0%nat (List.length rest)
           end).
Proof.
  unfold calls. rewrite loop_shared_latch, outside_filter.
  split.
  - pose proof (latch_checks_bound
                  (fun x => int_in x (hours_to_search_for_upgrades cfg))
                  (map now_hour ticks) (latch_of (lock w))) as B.
    destruct (lock w); cbn [latch_of Nat.b2n] in *; lia.
  - intros O.
    assert (A : forallb (fun x => int_in x (hours_to_search_for_upgrades cfg))
                  (map now_hour ticks) = true).
    { clear w. induction (map now_hour ticks) as [| h hs IH];
        [reflexivity |].
      cbn [filter forallb] in *.
      destruct (int_in h (hours_to_search_for_upgrades cfg));
        cbn [negb] in O; [auto | discriminate]. }
    split.
    + destruct (lock w); cbn [latch_of].
      * apply latch_checks_fired. exact A.
      * destruct ticks as [| t rest]; [reflexivity |].
        cbn [map forallb] in A. apply andb_prop in A as [At Ar].
        cbn [map Spec.latch_checks]. unfold Spec.latch_step. rewrite At.
        rewrite list_sum_cons, latch_checks_fired by exact Ar.
        reflexivity.
    + destruct ticks as [| t rest]; [reflexivity |].
      cbn [map forallb] in A. apply andb_prop in A as [At Ar].
      cbn [map Spec.latch_checks]. unfold Spec.latch_step. rewrite At.
      rewrite <- (length_map now_hour rest).
      destruct (lock w); cbn [latch_of];
        rewrite (latch_checks_fired_all _ _ Ar); reflexivity.
Qed.

Lemma calls_bounded_witness :
  outside (no_ignore [22; 23]) [at_hour 22; at_hour 23; at_hour 22] = 0%nat
  /\ calls (no_ignore [22; 23]) [at_hour 22; at_hour 23; at_hour 22]
       (init true) = 1%nat.
Proof.
  assert (O : outside (no_ignore [22; 23])
                [at_hour 22; at_hour 23; at_hour 22] = 0%nat)
    by reflexivity.
  split; [exact O |].
  exact (proj1 (proj2 (calls_bounded (no_ignore [22; 23])
                         [at_hour 22; at_hour 23; at_hour 22] (init true))
                  O)).
Defined.

(** X10: with no hour configured the loop never calls
    [_check_for_updates], whatever the clock shows, and every iteration
    leaves the lock open. *)
Theorem no_hours_no_checks (cfg : Configurables) (ticks : list tick)
    (w : Widget) :
  hours_to_search_for_upgrades cfg = [] ->
  check_counts cfg ticks w = repeat 0%nat (List.length ticks)
  /\ forall t, lock (fst (mainloop_body cfg t w)) = false.
Proof.
  intros H. split.
  - rewrite loop_shared_latch, latch_checks_none, length_map;
      [reflexivity |].
    intros h. rewrite H. reflexivity.
  - intros t. pose proof (body_latch cfg t w) as B. cbv zeta in B.
    unfold Spec.latch_step in B. rewrite H in B. cbn [int_in existsb] in B.
    injection B as B _. destruct (lock (fst (mainloop_body cfg t w)));
      [discriminate | reflexivity].
Qed.

Lemma no_hours_no_checks_witness :
  hours_to_search_for_upgrades (no_ignore []) = []
  /\ check_counts (no_ignore []) night (init true)
     = repeat 0%nat (List.length night).
Proof.
  assert (H : hours_to_search_for_upgrades (no_ignore []) = [])
    by reflexivity.
  split; [exact H |].
  exact (proj1 (no_hours_no_checks (no_ignore []) night (init true) H)).
Defined.

(** What one action does to the attributes it does not own. *)
Lemma step_frame (cfg : Configurables) (a : action) (w : Widget) :
  let w' := fst (step cfg a w) in
  write_in_black w'
  = (if is_theme a then negb (write_in_black w) else write_in_black w)
  /\ (is_iterate a = false ->
      fonts w' = fonts w /\ lock w' = lock w /\ snd (step cfg a w) = []
      /\ (pip_update w = true -> pip_update w' = true)
      /\ (choco_update w = true -> choco_update w' = true)).
Proof.
  destruct a as [t | p | p | color]; cbn [step fst snd is_theme is_iterate].
  - split; [| discriminate].
    rewrite body_unfold. cbn [fst].
    destruct (get_image_flags (cpu t)
                (fst (schedule cfg (now_hour t) (fst (drain w)))))
      as (_ & _ & _ & ->).
    rewrite drain_state. unfold schedule.
    destruct (int_in _ _); [destruct (negb _) |]; reflexivity.
  - destruct (pip_worker_shape cfg p) as (b & ->).
    destruct b; destruct w as [c q k f l]; cbn; repeat split; auto.
  - destruct (choco_worker_shape cfg p) as (b & ->).
    destruct b; destruct w as [c q k f l]; cbn; repeat split; auto.
  - destruct w as [c q k f l]; cbn; repeat split; auto.
Qed.

(** X11: after any run of iterations, worker ends and theme
    notifications, the theme flag is the one the run started with when the
    number of notifications is even and its negation when it is odd:
    nothing but a notification changes it, and what the notifications said
    does not matter. *)
Theorem theme_flag_parity (cfg : Configurables) (actions : list action)
    (w : Widget) :
  write_in_black (fst (run cfg actions w))
  = xorb (write_in_black w)
      (Nat.odd (List.length (filter is_theme actions))).
Proof.
  revert w. induction actions as [| a rest IH]; intros w.
  - cbn. rewrite xorb_false_r. reflexivity.
  - cbn [run]. pose proof (step_frame cfg a w) as [F _].
    destruct (step cfg a w) as [w1 e]. cbn [fst] in F.
    specialize (IH w1). destruct (run cfg rest w1) as [w2 es].
    cbn [fst] in *. rewrite IH, F. cbn [filter].
    destruct (is_theme a); [| reflexivity].
    cbn [List.length]. rewrite Nat.odd_succ, <- Nat.negb_odd.
    destruct (write_in_black w), (Nat.odd _); reflexivity.
Qed.

(** X12: a flag that is set stays set through worker ends and theme
    notifications, which post nothing, and the next iteration of the loop
    then posts exactly one notification for it. *)
Theorem flag_kept_until_drained (cfg : Configurables)
    (actions : list action) (w : Widget) (t : tick) :
  forallb (fun a => negb (is_iterate a)) actions = true ->
  let w' := fst (run cfg actions w) in
  Forall (fun es => es = []) (snd (run cfg actions w))
  /\ (pip_update w = true ->
      pip_update w' = true
      /\ notified "Pip" (snd (mainloop_body cfg t w')) = 1%nat)
  /\ (choco_update w = true ->
      choco_update w' = true
      /\ notified "Chocolatey" (snd (mainloop_body cfg t w')) = 1%nat).
Proof.
  intros Hq. cbv zeta.
  assert (K : Forall (fun es => es = []) (snd (run cfg actions w))
              /\ (pip_update w = true ->
                  pip_update (fst (run cfg actions w)) = true)
              /\ (choco_update w = true ->
                  choco_update (fst (run cfg actions w)) = true)).
  { revert w. induction actions as [| a rest IH]; intros w.
    - cbn. auto.
    - cbn [forallb] in Hq. apply andb_prop in Hq as [Ha Hr].
      apply negb_true_iff in Ha.
      pose proof (step_frame cfg a w) as [_ F].
      specialize (F Ha) as (_ & _ & E & P & C).
      cbn [run]. destruct (step cfg a w) as [w1 e]. cbn [fst snd] in *.
      specialize (IH Hr w1) as (I1 & I2 & I3).
      destruct (run cfg rest w1) as [w2 es]. cbn [fst snd] in *.
      split; [constructor; auto | split; auto]. }
  destruct K as (K1 & K2 & K3).
  split; [exact K1 |].
  split; intros H; rewrite body_notified.
  - destruct (drain_notified (fst (run cfg actions w))) as (-> & _ & _).
    rewrite (K2 H). auto.
  - destruct (drain_notified (fst (run cfg actions w))) as (_ & -> & _).
    rewrite (K3 H). auto.
Qed.

Lemma flag_kept_until_drained_witness :
  forallb (fun a => negb (is_iterate a))
    [ThemeChanged "Dark"; ChocoWorker Missing; PipWorker (Ran pip_header)]
  = true
  /\ pip_update pip_found = true
  /\ notified "Pip"
       (snd (mainloop_body shipped (at_hour 9)
               (fst (run shipped
                       [ThemeChanged "Dark"; ChocoWorker Missing;
                        PipWorker (Ran pip_header)] pip_found))))
     = 1%nat.
Proof.
  assert (Hq : forallb (fun a => negb (is_iterate a))
                 [ThemeChanged "Dark"; ChocoWorker Missing;
                  PipWorker (Ran pip_header)] = true) by reflexivity.
  assert (Hp : pip_update pip_found = true) by reflexivity.
  split; [exact Hq |]. split; [exact Hp |].
  exact (proj2 (proj1 (proj2 (flag_kept_until_drained shipped _ pip_found
                                (at_hour 9) Hq)) Hp)).
Defined.

Lemma get_image_fonts (raw : Q) (w : Widget) :
  let f := fonts (fst (_get_image raw w)) in
  let size := font_size (snd (_get_image raw w)) in
  In size f
  /\ (size = 21 \/ size = 24)
  /\ (In size (fonts w) -> f = fonts w)
  /\ (~ In size (fonts w) -> f = size :: fonts w).
Proof.
  unfold _get_image. cbv zeta.
  assert (R : forall x l, int_in x l = true <-> In x l).
  { intros x l. unfold int_in. rewrite existsb_exists. split.
    - intros (y & Hy & E). apply Z.eqb_eq in E. subst. exact Hy.
    - intros H. exists x. split; [exact H | apply Z.eqb_refl]. }
  destruct (round raw =? 100); cbn [fst snd font_size].
  - destruct (int_in 21 (fonts w)) eqn:E; cbn [fonts set_fonts].
    + apply R in E. repeat split; auto. intros N. contradiction.
    + repeat split; auto; [left; reflexivity |].
      intros H. apply R in H. congruence.
  - destruct (int_in 24 (fonts w)) eqn:E; cbn [fonts set_fonts].
    + apply R in E. repeat split; auto. intros N. contradiction.
    + repeat split; auto; [left; reflexivity |].
      intros H. apply R in H. congruence.
Qed.

(** X13: the font cache only grows, holds each size once, and holds no
    size but 21 and 24: after any run from the start of the program it has
    at most two fonts, and a size that is drawn is in it afterwards, so
    that a font is loaded at most once for each of the two sizes. *)
Theorem font_cache_invariant (cfg : Configurables) (actions : list action)
    (is_light : bool) (raw : Q) :
  let w := fst (run cfg actions (init is_light)) in
  NoDup (fonts w)
  /\ incl (fonts w) [21; 24]
  /\ (List.length (fonts w) <= 2)%nat
  /\ In (font_size (snd (_get_image raw w))) (fonts (fst (_get_image raw w)))
  /\ incl (fonts w) (fonts (fst (_get_image raw w))).
Proof.
  cbv zeta.
  assert (K : forall w,
             NoDup (fonts w) /\ incl (fonts w) [21; 24] ->
             NoDup (fonts (fst (run cfg actions w)))
             /\ incl (fonts (fst (run cfg actions w))) [21; 24]).
  { induction actions as [| a rest IH]; intros w Hw; [exact Hw |].
    cbn [run].
    assert (S1 : NoDup (fonts (fst (step cfg a w)))
                 /\ incl (fonts (fst (step cfg a w))) [21; 24]).
    { destruct (is_iterate a) eqn:Ia.
      - destruct a as [t | | |]; try discriminate. cbn [step].
        rewrite body_unfold. cbn [fst].
        set (w2 := fst (schedule cfg (now_hour t) (fst (drain w)))).
        assert (E : fonts w2 = fonts w).
        { unfold w2, schedule. rewrite drain_state.
          destruct (int_in _ _); [destruct (negb _) |]; reflexivity. }
        pose proof (get_image_fonts (cpu t) w2) as G. cbv zeta in G.
        destruct G as (_ & Hs & G1 & G2). rewrite E in G1, G2.
        destruct Hw as [Hn Hi].
        destruct (in_dec Z.eq_dec (font_size (snd (_get_image (cpu t) w2)))
                    (fonts w)) as [I | I].
        + rewrite (G1 I). auto.
        + rewrite (G2 I). split; [constructor; auto |].
          intros x [<- | Hx]; [| auto].
          destruct Hs as [-> | ->]; cbn; auto.
      - pose proof (step_frame cfg a w) as [_ F].
        destruct (F Ia) as (-> & _). exact Hw. }
    destruct (step cfg a w) as [w1 e]. cbn [fst] in S1.
    specialize (IH w1 S1). destruct (run cfg rest w1) as [w2 es].
    exact IH. }
  destruct (K (init is_light)) as [Kn Ki].
  { split; [constructor | intros x []]. }
  split; [exact Kn |]. split; [exact Ki |].
  split; [apply (NoDup_incl_length Kn Ki) |].
  pose proof (get_image_fonts raw (fst (run cfg actions (init is_light))))
    as G.
  cbv zeta in G. destruct G as (G0 & _ & G1 & G2).
  split; [exact G0 |].
  destruct (in_dec Z.eq_dec
              (font_size
                 (snd (_get_image raw
                         (fst (run cfg actions (init is_light))))))
              (fonts (fst (run cfg actions (init is_light))))) as [I | I].
  - rewrite (G1 I). apply incl_refl.
  - rewrite (G2 I). apply incl_tl, incl_refl.
Qed.

(** ** Power profiles *)

Module StartupFacts.
Import Startup.

Lemma hex_not_dash (c : ascii) : ishex c = true -> Ascii.eqb c "-" = false.
Proof.
  intros H. destruct (Ascii.eqb_spec c "-") as [-> | N]; [| reflexivity].
  discriminate H.
Qed.

Lemma take_spec (p : ascii -> bool) (n : nat) :
  forall s t r,
    take p n s = Some (t, r) ->
    s = t ++ r /\ String.length t = n
    /\ forallb p (list_ascii_of_string t) = true.
Proof.
  induction n as [| n IH]; intros s t r H; cbn [take] in H.
  - injection H as <- <-. auto.
  - destruct s as [| c s]; [discriminate |].
    destruct (p c) eqn:Pc; [| discriminate].
    destruct (take p n s) as [[t' r'] |] eqn:T; [| discriminate].
    injection H as <- <-.
    destruct (IH _ _ _ T) as (-> & L & F).
    cbn. rewrite L, Pc, F. auto.
Qed.

Lemma take_app (p : ascii -> bool) (n : nat) :
  forall s t r x,
    take p n s = Some (t, r) -> take p n (s ++ x) = Some (t, r ++ x).
Proof.
  induction n as [| n IH]; intros s t r x H; cbn [take] in *.
  - injection H as <- <-. reflexivity.
  - destruct s as [| c s]; [discriminate |]. cbn [append].
    destruct (p c); [| discriminate].
    destruct (take p n s) as [[t' r'] |] eqn:T; [| discriminate].
    injection H as <- <-. rewrite (IH _ _ _ x T). reflexivity.
Qed.

Lemma first_dash_hex (t r : string) :
  forallb ishex (list_ascii_of_string t) = true ->
  first_dash (t ++ String "-" r) = Some (String.length t).
Proof.
  induction t as [| c t IH]; cbn; [reflexivity |].
  intros H. apply andb_prop in H as [Hc Ht].
  rewrite (hex_not_dash c Hc), IH by exact Ht. reflexivity.
Qed.

Lemma hex_dash_spec (k : nat) (s t r : string) :
  hex_dash k s = Some (t, r) ->
  s = t ++ r /\ String.length t = S k /\ first_dash s = Some k.
Proof.
  unfold hex_dash. intros H.
  destruct (take ishex k s) as [[h [| c r']] |] eqn:T; try discriminate.
  destruct (Ascii.eqb_spec c "-") as [-> | N]; [| discriminate].
  injection H as <- <-.
  destruct (take_spec _ _ _ _ _ T) as (-> & L & F).
  rewrite app_string_assoc, length_app_string, L.
  split; [reflexivity |]. split; [cbn; lia |].
  rewrite <- L. apply first_dash_hex. exact F.
Qed.

Lemma hex_dash_app (k : nat) (s t r x : string) :
  hex_dash k s = Some (t, r) -> hex_dash k (s ++ x) = Some (t, r ++ x).
Proof.
  unfold hex_dash. intros H.
  destruct (take ishex k s) as [[h [| c r']] |] eqn:T; try discriminate.
  rewrite (take_app _ _ _ _ _ x T). cbn [append].
  destruct (Ascii.eqb c "-"); [| discriminate].
  injection H as <- <-. reflexivity.
Qed.

(** What [guid_at] takes is a prefix of 36 characters whose first dash is
    its ninth character. *)
Lemma guid_at_spec (s g r : string) :
  guid_at s = Some (g, r) ->
  s = g ++ r /\ String.length g = 36%nat /\ first_dash s = Some 8%nat.
Proof.
  unfold guid_at. intros H.
  destruct (hex_dash 8 s) as [[a s1] |] eqn:A; [| discriminate].
  destruct (hex_dash 4 s1) as [[b s2] |] eqn:B; [| discriminate].
  destruct (hex_dash 4 s2) as [[c s3] |] eqn:C; [| discriminate].
  destruct (hex_dash 4 s3) as [[d s4] |] eqn:D; [| discriminate].
  destruct (take ishex 12 s4) as [[e rest] |] eqn:E; [| discriminate].
  injection H as <- <-.
  destruct (hex_dash_spec _ _ _ _ A) as (-> & La & Fa).
  destruct (hex_dash_spec _ _ _ _ B) as (-> & Lb & _).
  destruct (hex_dash_spec _ _ _ _ C) as (-> & Lc & _).
  destruct (hex_dash_spec _ _ _ _ D) as (-> & Ld & _).
  destruct (take_spec _ _ _ _ _ E) as (-> & Le & _).
  rewrite !app_string_assoc, !length_app_string, La, Lb, Lc, Ld, Le.
  auto.
Qed.

Lemma guid_at_app (s g r x : string) :
  guid_at s = Some (g, r) -> guid_at (s ++ x) = Some (g, r ++ x).
Proof.
  unfold guid_at. intros H.
  destruct (hex_dash 8 s) as [[a s1] |] eqn:A; [| discriminate].
  destruct (hex_dash 4 s1) as [[b s2] |] eqn:B; [| discriminate].
  destruct (hex_dash 4 s2) as [[c s3] |] eqn:C; [| discriminate].
  destruct (hex_dash 4 s3) as [[d s4] |] eqn:D; [| discriminate].
  destruct (take ishex 12 s4) as [[e rest] |] eqn:E; [| discriminate].
  rewrite (hex_dash_app _ _ _ _ x A), (hex_dash_app _ _ _ _ x B),
    (hex_dash_app _ _ _ _ x C), (hex_dash_app _ _ _ _ x D),
    (take_app _ _ _ _ _ x E).
  injection H as <- <-. reflexivity.
Qed.

Lemma is_guid_at (g x : string) :
  is_guid g = true -> guid_at (g ++ x) = Some (g, x).
Proof.
  unfold is_guid. intros H.
  destruct (guid_at g) as [[g' [| c r]] |] eqn:G; try discriminate.
  apply String.eqb_eq in H. subst g'.
  apply (guid_at_app _ _ _ x G).
Qed.

Lemma first_dash_lead (l s : string) :
  no_char "-" l = true ->
  first_dash (l ++ s)
  = option_map (fun k => (String.length l + k)%nat) (first_dash s).
Proof.
  unfold no_char. induction l as [| c l IH]; cbn.
  - intros _. destruct (first_dash s); reflexivity.
  - intros H. apply andb_prop in H as [Hc Hl].
    apply negb_true_iff in Hc. rewrite Hc, IH by exact Hl.
    destruct (first_dash s); reflexivity.
Qed.

Lemma first_dash_none (s : string) :
  no_char "-" s = true -> first_dash s = None.
Proof.
  intros H. rewrite <- (app_empty_r s), first_dash_lead by exact H.
  reflexivity.
Qed.

Lemma guid_match_needs_dash (s : string) :
  first_dash s <> Some 8%nat -> guid_match s = None.
Proof.
  intros H. unfold guid_match.
  destruct (guid_at s) as [[g r] |] eqn:G; [| reflexivity].
  destruct (guid_at_spec _ _ _ G) as (_ & _ & F). contradiction.
Qed.

Lemma guid_search_no_dash (s : string) :
  no_char "-" s = true -> guid_search s = None.
Proof.
  induction s as [| c s IH]; intros H.
  - reflexivity.
  - cbn [guid_search].
    rewrite guid_match_needs_dash
      by (rewrite (first_dash_none _ H); discriminate).
    apply IH. unfold no_char in *. cbn in H.
    apply andb_prop in H as [_ H]. exact H.
Qed.

Lemma last_close_app (name t n a : string) :
  no_char "010" name = true ->
  last_close t = Some (n, a) ->
  last_close (name ++ t) = Some (name ++ n, a).
Proof.
  unfold no_char. induction name as [| c name IH]; cbn; [auto |].
  intros H T. apply andb_prop in H as [Hc Hn].
  apply negb_true_iff in Hc.
  assert (N : (Py.code c =? 10)%nat = false).
  { apply Nat.eqb_neq. intros E. apply Ascii.eqb_neq in Hc. apply Hc.
    rewrite <- (ascii_nat_embedding c). unfold Py.code in E. rewrite E.
    reflexivity. }
  rewrite N, (IH Hn T). reflexivity.
Qed.

(** A line as [powercfg] prints it is read back as it was written. *)
Lemma guid_search_line (lead g name : string) (active : bool) :
  no_char "-" lead = true -> is_guid g = true ->
  no_char "010" name = true ->
  guid_search (profile_line lead g name active)
  = Some (g, name, if active then " *" else EmptyString).
Proof.
  intros Hl Hg Hn. unfold profile_line.
  set (tail := "  (" ++ name ++ ")"
               ++ (if active then " *" else EmptyString)).
  assert (M : guid_match (g ++ tail)
              = Some (g, name, if active then " *" else EmptyString)).
  { unfold guid_match. rewrite (is_guid_at g tail Hg).
    unfold tail. cbn [append Py.lstrip].
    change (Py.isspace " ") with true. cbv iota.
    change (Py.isspace "(") with false. cbv iota.
    rewrite Ascii.eqb_refl.
    rewrite (last_close_app name _ EmptyString
               (if active then " *" else EmptyString) Hn).
    - rewrite app_empty_r. destruct active; reflexivity.
    - destruct active; reflexivity. }
  assert (F : first_dash (g ++ tail) = Some 8%nat).
  { destruct (guid_at_spec _ _ _ (is_guid_at g tail Hg)) as (_ & _ & F).
    exact F. }
  clearbody tail.
  induction lead as [| c lead IH].
  - cbn [append]. destruct (g ++ tail); cbn [guid_search]; rewrite M;
      reflexivity.
  - cbn [append guid_search].
    rewrite guid_match_needs_dash.
    + apply IH. unfold no_char in *. cbn in Hl.
      apply andb_prop in Hl as [_ Hl]. exact Hl.
    + change (String c (lead ++ g ++ tail))
        with (String c lead ++ (g ++ tail)).
      rewrite (first_dash_lead _ _ Hl), F. cbn. intros E.
      injection E as E. lia.
Qed.

Lemma guid_search_sound (line g n a : string) :
  guid_search line = Some (g, n, a) ->
  String.length g = 36%nat
  /\ (a = EmptyString \/ a = " *")
  /\ exists lead ws after,
       line = lead ++ g ++ ws ++ "(" ++ n ++ ")" ++ after
       /\ all_space ws = true
       /\ a = asterisk_of after.
Proof.
  induction line as [| c line IH].
  - cbn. discriminate.
  - cbn [guid_search].
    destruct (guid_match (String c line)) as [[[g' n'] a'] |] eqn:M.
    + intros E. injection E as -> -> ->.
      unfold guid_match in M.
      destruct (guid_at (String c line)) as [[g0 r] |] eqn:G;
        [| discriminate].
      destruct (guid_at_spec _ _ _ G) as (E & L & _).
      assert (W : exists ws, r = ws ++ Py.lstrip r /\ all_space ws = true).
      { clear. induction r as [| d r IHr].
        - exists EmptyString. auto.
        - cbn [Py.lstrip]. destruct (Py.isspace d) eqn:D.
          + destruct IHr as (ws & E & A). exists (String d ws).
            cbn [append]. rewrite <- E. unfold all_space in *. cbn.
            rewrite D, A. auto.
          + exists EmptyString. auto. }
      destruct W as (ws & Er & Aw).
      destruct (Py.lstrip r) as [| p r'] eqn:R; [discriminate |].
      destruct (Ascii.eqb_spec p "(") as [-> | N]; [| discriminate].
      destruct (last_close r') as [[nm after] |] eqn:LC; [| discriminate].
      injection M as <- <- <-.
      assert (C : forall s nm' aft,
                 last_close s = Some (nm', aft) ->
                 s = nm' ++ ")" ++ aft).
      { clear. induction s as [| d s IHs]; intros nm' aft H;
          [discriminate |].
        cbn [last_close] in H.
        destruct (Py.code d =? 10)%nat; [discriminate |].
        destruct (last_close s) as [[n1 a1] |] eqn:L1.
        - injection H as <- <-. rewrite (IHs _ _ eq_refl). reflexivity.
        - destruct (Ascii.eqb_spec d ")") as [-> | N]; [| discriminate].
          injection H as <- <-. reflexivity. }
      split; [exact L |].
      split; [unfold asterisk_of; destruct (prefix " *" after); auto |].
      exists EmptyString, ws, after.
      split; [| auto].
      cbn [append]. rewrite E, Er. rewrite (C _ _ _ LC). reflexivity.
    + intros H. destruct (IH H) as (L & A & lead & ws & after & E & W & Ea).
      split; [exact L |]. split; [exact A |].
      exists (String c lead), ws, after. rewrite E. auto.
Qed.

End StartupFacts.

Section ProfileLists.
Import Startup.

Lemma profiles_of_length (lines : list string) :
  (List.length (profiles_of lines) <= List.length lines)%nat.
Proof.
  induction lines as [| line rest IH]; cbn; [lia |].
  destruct (guid_search line); cbn; lia.
Qed.

Lemma profiles_of_sound (lines : list string) (g n a : string) :
  In (g, n, a) (profiles_of lines) ->
  exists line, In line lines /\ guid_search line = Some (g, n, a).
Proof.
  induction lines as [| line rest IH]; cbn; [contradiction |].
  destruct (guid_search line) as [p |] eqn:S.
  - intros [-> | H]; [exists line; auto |].
    destruct (IH H) as (l & Hl & E). exists l. auto.
  - intros H. destruct (IH H) as (l & Hl & E). exists l. auto.
Qed.

Lemma profiles_of_no_dash (lines : list string) :
  forallb (no_char "-") lines = true -> profiles_of lines = [].
Proof.
  induction lines as [| line rest IH]; [reflexivity |].
  cbn [forallb profiles_of]. intros H. apply andb_prop in H as [Hl Hr].
  rewrite (StartupFacts.guid_search_no_dash line Hl). auto.
Qed.

Lemma hex_or_dash_no_linebreak (c : ascii) :
  ishex c || Ascii.eqb c "-" = true -> Py.islinebreak c = false.
Proof.
  destruct c as [[] [] [] [] [] [] [] []]; intros H;
    first [reflexivity | discriminate H].
Qed.

Lemma no_linebreak_app (s t : string) :
  no_linebreak (s ++ t) = no_linebreak s && no_linebreak t.
Proof.
  unfold no_linebreak. rewrite list_of_string_app. apply forallb_app.
Qed.

Lemma take_hex_no_linebreak (n : nat) (s t r : string) :
  take ishex n s = Some (t, r) -> no_linebreak t = true.
Proof.
  intros H. destruct (StartupFacts.take_spec _ _ _ _ _ H) as (_ & _ & F).
  unfold no_linebreak. clear H.
  induction t as [| c t IH]; [reflexivity |].
  cbn in *. apply andb_prop in F as [Fc Ft].
  rewrite hex_or_dash_no_linebreak, IH; auto.
  rewrite Fc. reflexivity.
Qed.

Lemma hex_dash_no_linebreak (k : nat) (s t r : string) :
  hex_dash k s = Some (t, r) -> no_linebreak t = true.
Proof.
  unfold hex_dash. intros H.
  destruct (take ishex k s) as [[h [| c r']] |] eqn:T; try discriminate.
  destruct (Ascii.eqb c "-"); [| discriminate].
  injection H as <- <-.
  rewrite no_linebreak_app, (take_hex_no_linebreak _ _ _ _ T). reflexivity.
Qed.

Lemma guid_no_linebreak (g : string) :
  is_guid g = true -> no_linebreak g = true.
Proof.
  unfold is_guid. intros H.
  destruct (guid_at g) as [[g' [| c r]] |] eqn:G; try discriminate.
  apply String.eqb_eq in H. subst g'. unfold guid_at in G.
  destruct (hex_dash 8 g) as [[a s1] |] eqn:A; [| discriminate].
  destruct (hex_dash 4 s1) as [[b s2] |] eqn:B; [| discriminate].
  destruct (hex_dash 4 s2) as [[c s3] |] eqn:C; [| discriminate].
  destruct (hex_dash 4 s3) as [[d s4] |] eqn:D; [| discriminate].
  destruct (take ishex 12 s4) as [[e rest] |] eqn:E; [| discriminate].
  injection G as G _. rewrite <- G, !no_linebreak_app.
  rewrite (hex_dash_no_linebreak _ _ _ _ A), (hex_dash_no_linebreak _ _ _ _ B),
    (hex_dash_no_linebreak _ _ _ _ C), (hex_dash_no_linebreak _ _ _ _ D),
    (take_hex_no_linebreak _ _ _ _ E).
  reflexivity.
Qed.

Lemma no_linebreak_no_newline (s : string) :
  no_linebreak s = true -> no_char "010" s = true.
Proof.
  unfold no_linebreak, no_char.
  induction (list_ascii_of_string s) as [| c l IH]; [reflexivity |].
  cbn. intros H. apply andb_prop in H as [Hc Hl].
  rewrite (IH Hl), andb_true_r.
  destruct (Ascii.eqb_spec c "010") as [-> | N]; [discriminate | reflexivity].
Qed.

Lemma splitlines_line (l s : string) :
  no_linebreak l = true ->
  Py.splitlines (l ++ nl ++ s) = l :: Py.splitlines s.
Proof.
  intros H. unfold Py.splitlines at 1.
  rewrite (splitlines_aux_line l s EmptyString false H). reflexivity.
Qed.

End ProfileLists.

(** X14: [_get_profiles] reads back what [powercfg /l] prints: for
    profiles whose identifiers are well formed and whose names hold no line
    break, the listing gives the profiles in order, each with its
    identifier, its name, parentheses inside the name included, and the
    mark of the active one; the heading lines give nothing. *)
Theorem get_profiles_round_trip (rows : list (string * string * bool)) :
  Forall (fun row => Startup.is_guid (fst (fst row)) = true
                     /\ no_linebreak (snd (fst row)) = true) rows ->
  Startup._get_profiles (Ran (Startup.listing rows))
  = Startup.Ok (map Startup.groups_of rows).
Proof.
  intros H. unfold Startup._get_profiles, Startup.listing. f_equal.
  match goal with
  | |- context [Py.splitlines (nl ++ ?s)] =>
      change (nl ++ s) with (EmptyString ++ nl ++ s)
  end.
  rewrite (splitlines_line EmptyString) by reflexivity.
  rewrite splitlines_line by reflexivity.
  rewrite splitlines_line by reflexivity.
  cbn [Startup.profiles_of].
  change (Startup.guid_search EmptyString) with
    (@None (string * string * string)).
  replace (Startup.guid_search "Existing Power Schemes (* Active)")
    with (@None (string * string * string)) by (vm_compute; reflexivity).
  replace (Startup.guid_search "-----------------------------------")
    with (@None (string * string * string)) by (vm_compute; reflexivity).
  induction H as [| [[g n] a] rows [Hg Hn] Hr IH]; [reflexivity |].
  cbn [fst snd] in Hg, Hn. cbn [fold_right map fst snd].
  rewrite splitlines_line.
  - cbn [Startup.profiles_of].
    rewrite StartupFacts.guid_search_line;
      [| reflexivity | exact Hg | apply no_linebreak_no_newline; exact Hn].
    rewrite IH. reflexivity.
  - unfold Startup.profile_line.
    rewrite !no_linebreak_app, (guid_no_linebreak g Hg), Hn.
    destruct a; reflexivity.
Qed.

Lemma get_profiles_round_trip_witness :
  Forall (fun row => Startup.is_guid (fst (fst row)) = true
                     /\ no_linebreak (snd (fst row)) = true)
    [("381b4222-f694-41f0-9685-ff5bb260df2e", "Balanced", true);
     ("8c5e7fda-e8bf-4a96-9a85-a6e23a8c635c", "High (max) performance",
      false)]
  /\ Startup._get_profiles
       (Ran (Startup.listing
               [("381b4222-f694-41f0-9685-ff5bb260df2e", "Balanced", true);
                ("8c5e7fda-e8bf-4a96-9a85-a6e23a8c635c",
                 "High (max) performance", false)]))
     = Startup.Ok
         [("381b4222-f694-41f0-9685-ff5bb260df2e", "Balanced", " *");
          ("8c5e7fda-e8bf-4a96-9a85-a6e23a8c635c", "High (max) performance",
           EmptyString)].
Proof.
  assert (H : Forall (fun row => Startup.is_guid (fst (fst row)) = true
                                 /\ no_linebreak (snd (fst row)) = true)
                [("381b4222-f694-41f0-9685-ff5bb260df2e", "Balanced", true);
                 ("8c5e7fda-e8bf-4a96-9a85-a6e23a8c635c",
                  "High (max) performance", false)]).
  { repeat constructor. }
  split; [exact H |].
  exact (get_profiles_round_trip _ H).
Defined.

Section ExactMatch.
Import Startup.

Lemma no_char_app (c : ascii) (s t : string) :
  no_char c (s ++ t) = no_char c s && no_char c t.
Proof.
  unfold no_char. rewrite list_of_string_app. apply forallb_app.
Qed.

Lemma no_linebreak_snoc (cur : string) (c : ascii) :
  no_linebreak (Py.rev_string cur) = true ->
  Py.islinebreak c = false ->
  no_linebreak (Py.rev_string (String c cur)) = true.
Proof.
  intros H N. rewrite rev_string_cons, no_linebreak_app, H.
  unfold no_linebreak. cbn. rewrite N. reflexivity.
Qed.

Lemma splitlines_aux_no_linebreak (k : nat) :
  forall s cur started,
    (String.length s <= k)%nat ->
    no_linebreak (Py.rev_string cur) = true ->
    Forall (fun l => no_linebreak l = true)
      (Py.splitlines_aux s cur started).
Proof.
  induction k as [| k IH]; intros s cur started L H.
  - destruct s; [| cbn in L; lia].
    cbn. destruct started; repeat constructor. exact H.
  - destruct s as [| c s].
    + cbn. destruct started; repeat constructor. exact H.
    + cbn [String.length] in L. cbn [Py.splitlines_aux].
      destruct (Py.islinebreak c) eqn:B.
      * destruct s as [| c' s'].
        -- repeat constructor. exact H.
        -- cbn [String.length] in L.
           destruct ((Py.code c =? 13) && (Py.code c' =? 10))%nat;
             (constructor; [exact H |]);
             apply IH; try reflexivity; cbn [String.length]; lia.
      * apply IH; [lia |]. apply no_linebreak_snoc; assumption.
Qed.

(** No line of [splitlines] holds a line break. *)
Lemma splitlines_no_linebreak (s : string) :
  Forall (fun l => no_linebreak l = true) (Py.splitlines s).
Proof.
  apply (splitlines_aux_no_linebreak (String.length s)); auto.
Qed.

Lemma last_close_exact (s : string) :
  forall n after,
    last_close s = Some (n, after) ->
    s = n ++ ")" ++ after
    /\ no_char "010" n = true
    /\ last_close after = None.
Proof.
  induction s as [| c s IH]; intros n after H; [discriminate |].
  cbn [last_close] in H.
  destruct (Nat.eqb_spec (Py.code c) 10) as [E | E]; [discriminate |].
  assert (N : negb (Ascii.eqb c "010") = true).
  { apply negb_true_iff, Ascii.eqb_neq. intros ->. apply E. reflexivity. }
  destruct (last_close s) as [[n1 a1] |] eqn:L.
  - injection H as <- <-. destruct (IH _ _ eq_refl) as (-> & Hn & Ha).
    split; [reflexivity |]. split; [| exact Ha].
    unfold no_char in *. cbn. rewrite N, Hn. reflexivity.
  - destruct (Ascii.eqb_spec c ")") as [-> | Nc]; [| discriminate].
    injection H as <- <-. auto.
Qed.

Lemma last_close_none (s : string) :
  no_char "010" s = true -> last_close s = None ->
  no_char ")" s = true.
Proof.
  unfold no_char. induction s as [| c s IH]; [reflexivity |].
  cbn [list_ascii_of_string forallb last_close]. intros H L.
  apply andb_prop in H as [Hc Hs].
  destruct (Nat.eqb_spec (Py.code c) 10) as [E | E].
  - exfalso. apply negb_true_iff, Ascii.eqb_neq in Hc. apply Hc.
    rewrite <- (ascii_nat_embedding c). unfold Py.code in E. rewrite E.
    reflexivity.
  - destruct (last_close s) as [[n1 a1] |]; [discriminate |].
    destruct (Ascii.eqb c ")"); [discriminate |].
    cbn. apply IH; auto.
Qed.

Lemma take_again (p : ascii -> bool) (n : nat) :
  forall s t r x,
    take p n s = Some (t, r) -> take p n (t ++ x) = Some (t, x).
Proof.
  induction n as [| n IH]; intros s t r x H; cbn [take] in *.
  - injection H as <- <-. reflexivity.
  - destruct s as [| c s]; [discriminate |].
    destruct (p c) eqn:Pc; [| discriminate].
    destruct (take p n s) as [[t' r'] |] eqn:T; [| discriminate].
    injection H as <- <-. cbn [append]. rewrite Pc, (IH _ _ _ x T).
    reflexivity.
Qed.

Lemma hex_dash_again (k : nat) (s t r x : string) :
  hex_dash k s = Some (t, r) -> hex_dash k (t ++ x) = Some (t, x).
Proof.
  unfold hex_dash. intros H.
  destruct (take ishex k s) as [[h [| c r']] |] eqn:T; try discriminate.
  destruct (Ascii.eqb_spec c "-") as [-> | N]; [| discriminate].
  injection H as <- <-.
  rewrite app_string_assoc, (take_again _ _ _ _ _ ("-" ++ x) T).
  reflexivity.
Qed.

Lemma guid_at_again (s g r x : string) :
  guid_at s = Some (g, r) -> guid_at (g ++ x) = Some (g, x).
Proof.
  unfold guid_at. intros H.
  destruct (hex_dash 8 s) as [[a s1] |] eqn:A; [| discriminate].
  destruct (hex_dash 4 s1) as [[b s2] |] eqn:B; [| discriminate].
  destruct (hex_dash 4 s2) as [[c s3] |] eqn:C; [| discriminate].
  destruct (hex_dash 4 s3) as [[d s4] |] eqn:D; [| discriminate].
  destruct (take ishex 12 s4) as [[e rest] |] eqn:E; [| discriminate].
  injection H as <- <-. rewrite !app_string_assoc.
  rewrite (hex_dash_again _ _ _ _ _ A), (hex_dash_again _ _ _ _ _ B),
    (hex_dash_again _ _ _ _ _ C), (hex_dash_again _ _ _ _ _ D),
    (take_again _ _ _ _ _ x E).
  reflexivity.
Qed.

Lemma guid_at_is_guid (s g r : string) :
  guid_at s = Some (g, r) -> is_guid g = true.
Proof.
  intros H. unfold is_guid.
  pose proof (guid_at_again _ _ _ EmptyString H) as G.
  rewrite app_empty_r in G. rewrite G. apply String.eqb_refl.
Qed.

Lemma lstrip_split (r : string) :
  exists ws, r = ws ++ Py.lstrip r /\ all_space ws = true.
Proof.
  induction r as [| d r IH].
  - exists EmptyString. auto.
  - cbn [Py.lstrip]. destruct (Py.isspace d) eqn:D.
    + destruct IH as (ws & E & A). exists (String d ws).
      cbn [append]. rewrite <- E. unfold all_space in *. cbn.
      rewrite D, A. auto.
    + exists EmptyString. auto.
Qed.

(** What a match at the start of a text has read. *)
Lemma guid_match_exact (s g n a : string) :
  guid_match s = Some (g, n, a) ->
  exists ws after,
    s = g ++ ws ++ "(" ++ n ++ ")" ++ after
    /\ is_guid g = true
    /\ all_space ws = true
    /\ no_char "010" n = true
    /\ last_close after = None
    /\ a = (if prefix " *" after then " *" else EmptyString).
Proof.
  unfold guid_match. intros M.
  destruct (guid_at s) as [[g0 r] |] eqn:G; [| discriminate].
  destruct (StartupFacts.guid_at_spec _ _ _ G) as (E & _ & _).
  pose proof (guid_at_is_guid _ _ _ G) as I.
  destruct (lstrip_split r) as (ws & Er & Aw).
  destruct (Py.lstrip r) as [| p r'] eqn:R; [discriminate |].
  destruct (Ascii.eqb_spec p "(") as [-> | N]; [| discriminate].
  destruct (last_close r') as [[nm after] |] eqn:LC; [| discriminate].
  injection M as <- <- <-.
  destruct (last_close_exact _ _ _ LC) as (-> & Hn & Ha).
  exists ws, after. rewrite E, Er. auto 10.
Qed.

(** What [guid_search] has read, and where: no match starts before the
    one it returns. *)
Lemma guid_search_exact (line g n a : string) :
  guid_search line = Some (g, n, a) ->
  exists lead ws after,
    line = lead ++ g ++ ws ++ "(" ++ n ++ ")" ++ after
    /\ is_guid g = true
    /\ all_space ws = true
    /\ no_char "010" n = true
    /\ last_close after = None
    /\ a = (if prefix " *" after then " *" else EmptyString)
    /\ forall l1 l2,
         lead = l1 ++ l2 -> l2 <> EmptyString ->
         guid_match (l2 ++ g ++ ws ++ "(" ++ n ++ ")" ++ after) = None.
Proof.
  induction line as [| c line IH].
  - cbn. discriminate.
  - cbn [guid_search].
    destruct (guid_match (String c line)) as [[[g' n'] a'] |] eqn:M.
    + intros E. injection E as -> -> ->.
      destruct (guid_match_exact _ _ _ _ M)
        as (ws & after & E & I & W & Hn & La & Ea).
      exists EmptyString, ws, after.
      repeat (split; [assumption |]).
      intros l1 l2 El. symmetry in El.
      apply app_is_empty in El as [_ ->]. contradiction.
    + intros H.
      destruct (IH H) as (lead & ws & after & E & I & W & Hn & La & Ea & Lm).
      exists (String c lead), ws, after.
      split; [rewrite E; reflexivity |].
      repeat (split; [assumption |]).
      intros l1 l2 El Ne. destruct l1 as [| d l1].
      * cbn [append] in El. subst l2.
        change (guid_match
                  (String c (lead ++ g ++ ws ++ "(" ++ n ++ ")" ++ after))
                = None).
        rewrite <- E. exact M.
      * cbn [append] in El. injection El as _ El. apply (Lm l1 l2 El Ne).
Qed.

End ExactMatch.

(** X15: when [_get_profiles] returns, [powercfg] was found and its
    output was decoded, and there is at most one profile for each line of
    it.  Each profile returned stands in a line of the output where no
    match of the pattern starts further to the left: a well-formed
    identifier, white space, an opening parenthesis, the name, and the
    last closing parenthesis of the line; the third group is a space and an
    asterisk when these follow that parenthesis at once, and empty when
    they do not. *)
Theorem get_profiles_sound (p : popen)
    (profiles : list (string * string * string)) :
  Startup._get_profiles p = Startup.Ok profiles ->
  exists out,
    p = Ran out
    /\ (List.length profiles <= List.length (Py.splitlines out))%nat
    /\ forall g n a,
         In (g, n, a) profiles ->
         Startup.is_guid g = true
         /\ exists line lead ws after,
              In line (Py.splitlines out)
              /\ line = lead ++ g ++ ws ++ "(" ++ n ++ ")" ++ after
              /\ all_space ws = true
              /\ Startup.no_char ")" after = true
              /\ a = (if prefix " *" after then " *" else EmptyString)
              /\ forall l1 l2,
                   lead = l1 ++ l2 -> l2 <> EmptyString ->
                   Startup.guid_match
                     (l2 ++ g ++ ws ++ "(" ++ n ++ ")" ++ after) = None.
Proof.
  destruct p as [| out |]; try discriminate.
  cbn [Startup._get_profiles]. intros E. injection E as <-.
  exists out. split; [reflexivity |].
  split; [apply profiles_of_length |].
  intros g n a H.
  destruct (profiles_of_sound _ _ _ _ H) as (line & Hl & S).
  destruct (guid_search_exact _ _ _ _ S)
    as (lead & ws & after & E & I & W & Hn & La & Ea & Lm).
  split; [exact I |].
  exists line, lead, ws, after.
  split; [exact Hl |]. split; [exact E |]. split; [exact W |].
  split; [| split; [exact Ea | exact Lm]].
  apply last_close_none; [| exact La].
  pose proof (splitlines_no_linebreak out) as F.
  rewrite Forall_forall in F. specialize (F line Hl).
  apply no_linebreak_no_newline in F.
  rewrite E, !no_char_app in F.
  repeat (apply andb_prop in F as [_ F]). exact F.
Qed.

Lemma get_profiles_sound_witness :
  Startup._get_profiles
    (Ran ("GUID: 381b4222-f694-41f0-9685-ff5bb260df2e  (Quiet (night)) *"))
  = Startup.Ok
      [("381b4222-f694-41f0-9685-ff5bb260df2e", "Quiet (night)", " *")]
  /\ Startup.is_guid "381b4222-f694-41f0-9685-ff5bb260df2e" = true.
Proof.
  assert (H : Startup._get_profiles
                (Ran ("GUID: 381b4222-f694-41f0-9685-ff5bb260df2e"
                      ++ "  (Quiet (night)) *"))
              = Startup.Ok
                  [("381b4222-f694-41f0-9685-ff5bb260df2e", "Quiet (night)",
                    " *")]) by reflexivity.
  split; [exact H |].
  destruct (get_profiles_sound _ _ H) as (out & _ & _ & F).
  exact (proj1 (F _ _ _ (or_introl eq_refl))).
Defined.

(** X16: an output without a dash in any line, the empty output among
    them, has no profile; a missing [powercfg] is not caught. *)
Theorem get_profiles_nothing (out : string) :
  forallb (Startup.no_char "-") (Py.splitlines out) = true ->
  Startup._get_profiles (Ran out) = Startup.Ok []
  /\ Startup.init_menu (Ran out)
     = Startup.Ok ({| Startup.sec := 1 # 2;
                      Startup.active_guid := EmptyString |},
                   Startup.menu_of [])
  /\ Startup._get_profiles Missing = Startup.Raised Startup.FileNotFoundError
  /\ Startup.init_menu Missing = Startup.Raised Startup.FileNotFoundError.
Proof.
  intros H. unfold Startup.init_menu, Startup._get_profiles.
  rewrite (profiles_of_no_dash _ H). repeat split.
Qed.

Lemma get_profiles_nothing_witness :
  forallb (Startup.no_char "-")
    (Py.splitlines ("Access denied." ++ nl ++ "(try again)")) = true
  /\ Startup._get_profiles (Ran ("Access denied." ++ nl ++ "(try again)"))
     = Startup.Ok [].
Proof.
  assert (H : forallb (Startup.no_char "-")
                (Py.splitlines ("Access denied." ++ nl ++ "(try again)"))
              = true) by reflexivity.
  split; [exact H |].
  exact (proj1 (get_profiles_nothing _ H)).
Defined.

(** ** The menu *)

Section MenuFacts.
Import Startup.

Lemma truthy_false (s : string) : truthy s = false <-> s = EmptyString.
Proof.
  unfold truthy. rewrite negb_false_iff. apply String.eqb_eq.
Qed.

Lemma truthy_length (s : string) (n : nat) :
  String.length s = S n -> truthy s = true.
Proof. destruct s; [discriminate | reflexivity]. Qed.

Lemma profile_items_cons (p : string * string * string)
    (ps : list (string * string * string)) :
  profile_items (p :: ps)
  = profile_item (fst (fst p)) (snd (fst p)) :: profile_items ps.
Proof. reflexivity. Qed.

(** The loop over the profiles: with an identifier already taken, any
    further active profile fails the assertion; with none taken, the first
    active profile is taken. *)
Lemma add_profiles_spec (ps : list (string * string * string)) :
  Forall (fun p => truthy (fst (fst p)) = true) ps ->
  forall g menu,
    add_profiles ps g menu
    = if truthy g then
        match filter is_active ps with
        | [] => Ok (g, (menu ++ profile_items ps)%list)
        | _ => Raised AssertionError
        end
      else
        match filter is_active ps with
        | [] => Ok (g, (menu ++ profile_items ps)%list)
        | [p] => Ok (fst (fst p), (menu ++ profile_items ps)%list)
        | _ => Raised AssertionError
        end.
Proof.
  induction 1 as [| [[gh gn] a] ps Hg Hps IH]; intros g menu.
  - cbn. rewrite app_nil_r. destruct (truthy g); reflexivity.
  - cbn [fst snd] in Hg.
    cbn [add_profiles filter].
    change (is_active (gh, gn, a)) with (truthy a).
    rewrite profile_items_cons. cbn [fst snd].
    destruct (truthy a).
    + destruct (truthy g); cbn [negb]; [reflexivity |].
      rewrite IH, Hg, <- app_assoc. cbn [app].
      destruct (filter is_active ps); reflexivity.
    + rewrite IH, <- app_assoc. reflexivity.
Qed.

Lemma profiles_of_truthy (lines : list string) :
  Forall (fun p => truthy (fst (fst p)) = true) (profiles_of lines).
Proof.
  apply Forall_forall. intros [[g n] a] H.
  destruct (profiles_of_sound _ _ _ _ H) as (line & _ & S).
  destruct (StartupFacts.guid_search_sound _ _ _ _ S) as (L & _).
  apply (truthy_length g 35 L).
Qed.

Lemma checked_profile_items (ps : list (string * string * string))
    (st : Settings) :
  checked_items (profile_items ps) st
  = map (fun p => snd (fst p))
      (filter (fun p => String.eqb (active_guid st) (fst (fst p))) ps).
Proof.
  induction ps as [| p ps IH]; [reflexivity |].
  rewrite profile_items_cons. unfold profile_item.
  cbn [checked_items is_checked filter]. unfold _get_state at 1.
  destruct (String.eqb (active_guid st) (fst (fst p)));
    cbn [map]; rewrite IH; reflexivity.
Qed.

Lemma filter_by_key (ps : list (string * string * string))
    (p : string * string * string) :
  NoDup (map (fun q => fst (fst q)) ps) -> In p ps ->
  filter (fun q => String.eqb (fst (fst p)) (fst (fst q))) ps = [p].
Proof.
  induction ps as [| q ps IH]; [contradiction |].
  cbn [map filter]. intros N [-> | H]; inversion N as [| ? ? Nq Nps]; subst.
  - rewrite String.eqb_refl. f_equal.
    clear IH N Nps. induction ps as [| r ps IH]; [reflexivity |].
    cbn [filter map] in *.
    destruct (String.eqb_spec (fst (fst p)) (fst (fst r))) as [E | E].
    + exfalso. apply Nq. left. symmetry. exact E.
    + apply IH. intros H. apply Nq. right. exact H.
  - destruct (String.eqb_spec (fst (fst p)) (fst (fst q))) as [E | E].
    + exfalso. apply Nq. rewrite <- E.
      apply (in_map (fun q => fst (fst q)) _ _ H).
    + apply IH; assumption.
Qed.

Lemma filter_none_by_key (ps : list (string * string * string))
    (g : string) :
  ~ In g (map (fun q => fst (fst q)) ps) ->
  filter (fun q => String.eqb g (fst (fst q))) ps = [].
Proof.
  induction ps as [| q ps IH]; [reflexivity |].
  cbn [map filter]. intros N.
  destruct (String.eqb_spec g (fst (fst q))) as [E | E].
  - exfalso. apply N. left. symmetry. exact E.
  - apply IH. intros H. apply N. right. exact H.
Qed.

Lemma actions_of_app (m m' : list menu_entry) :
  actions_of (m ++ m') = (actions_of m ++ actions_of m')%list.
Proof.
  induction m as [| [t a c r |] m IH]; cbn; [| rewrite IH |]; auto.
Qed.

Lemma actions_of_profile_items (ps : list (string * string * string)) :
  actions_of (profile_items ps) = map (fun p => SetState (fst (fst p))) ps.
Proof.
  induction ps as [| p ps IH]; [reflexivity |].
  rewrite profile_items_cons. cbn. rewrite IH. reflexivity.
Qed.

(** The only items that set [sec] set it to one second or to half a
    second. *)
Lemma menu_intervals (ps : list (string * string * string)) (x : Q) :
  In (SetSec x) (actions_of (menu_of ps)) -> x = 1%Q \/ x = (1 # 2)%Q.
Proof.
  unfold menu_of. rewrite !actions_of_app, actions_of_profile_items.
  rewrite !in_app_iff. cbn [actions_of In]. rewrite in_map_iff.
  intros [[E | [E | []]] | [(p & E & _) | [E | [E | []]]]];
    try discriminate; injection E as <-; auto.
Qed.

End MenuFacts.

(** X17: the part of [__init__] that builds the menu ends with
    [AssertionError] exactly when [powercfg] marked two or more profiles as
    active.  When it marked one, [active_guid] is that profile's
    identifier, and when it marked none it stays empty; in both cases
    [sec] is one half and the menu holds the two intervals, one item for
    each profile in the order of the listing, the search and the exit,
    with separators, seven entries besides the profiles. *)
Theorem init_menu_active (out : string) :
  let profiles := Startup.profiles_of (Py.splitlines out) in
  Startup.init_menu (Ran out)
  = match filter Startup.is_active profiles with
    | [] =>
        Startup.Ok ({| Startup.sec := 1 # 2;
                       Startup.active_guid := EmptyString |},
                    Startup.menu_of profiles)
    | [p] =>
        Startup.Ok ({| Startup.sec := 1 # 2;
                       Startup.active_guid := fst (fst p) |},
                    Startup.menu_of profiles)
    | _ => Startup.Raised Startup.AssertionError
    end
  /\ List.length (Startup.menu_of profiles)
     = (List.length profiles + 7)%nat.
Proof.
  cbv zeta. split.
  - unfold Startup.init_menu, Startup._get_profiles.
    rewrite (add_profiles_spec _ (profiles_of_truthy _)).
    cbn [Startup.truthy String.eqb negb].
    destruct (filter Startup.is_active _) as [| p [| q l]];
      unfold Startup.menu_of; rewrite <- ?app_assoc; reflexivity.
  - unfold Startup.menu_of, Startup.profile_items.
    rewrite !length_app, length_map. cbn. lia.
Qed.

(** X18: a click on the item of a profile, when [powercfg] can be started,
    makes that profile the one whose item shows as checked: with
    identifiers that are all different, the checked profile items are that
    item and no other, whatever was checked before; when [powercfg] cannot
    be started, the click changes nothing. *)
Theorem profile_click_checks_one (ps : list (string * string * string))
    (p : string * string * string) (st : Startup.Settings) :
  NoDup (map (fun q => fst (fst q)) ps) -> In p ps ->
  Startup.checked_items (Startup.profile_items ps)
    (Startup.click (Startup.SetState (fst (fst p))) true st)
  = [snd (fst p)]
  /\ Startup.sec (Startup.click (Startup.SetState (fst (fst p))) true st)
     = Startup.sec st
  /\ Startup.click (Startup.SetState (fst (fst p))) false st = st.
Proof.
  intros N H. split; [| split; reflexivity].
  rewrite checked_profile_items.
  cbn [Startup.click Startup._set_state fst Startup.active_guid].
  rewrite (filter_by_key ps p N H). reflexivity.
Qed.

Lemma profile_click_checks_one_witness :
  NoDup (map (fun q : string * string * string => fst (fst q))
           [("381b4222-f694-41f0-9685-ff5bb260df2e", "Balanced", " *");
            ("8c5e7fda-e8bf-4a96-9a85-a6e23a8c635c", "High performance",
             EmptyString)])
  /\ Startup.checked_items
       (Startup.profile_items
          [("381b4222-f694-41f0-9685-ff5bb260df2e", "Balanced", " *");
           ("8c5e7fda-e8bf-4a96-9a85-a6e23a8c635c", "High performance",
            EmptyString)])
       (Startup.click
          (Startup.SetState "8c5e7fda-e8bf-4a96-9a85-a6e23a8c635c") true
          {| Startup.sec := 1 # 2;
             Startup.active_guid := "381b4222-f694-41f0-9685-ff5bb260df2e" |})
     = ["High performance"].
Proof.
  assert (N : NoDup (map (fun q : string * string * string => fst (fst q))
                       [("381b4222-f694-41f0-9685-ff5bb260df2e", "Balanced",
                         " *");
                        ("8c5e7fda-e8bf-4a96-9a85-a6e23a8c635c",
                         "High performance", EmptyString)])).
  { repeat constructor; cbn; intuition discriminate. }
  split; [exact N |].
  assert (H : In ("8c5e7fda-e8bf-4a96-9a85-a6e23a8c635c",
                  "High performance", EmptyString)
                [("381b4222-f694-41f0-9685-ff5bb260df2e", "Balanced", " *");
                 ("8c5e7fda-e8bf-4a96-9a85-a6e23a8c635c",
                  "High performance", EmptyString)])
    by (right; left; reflexivity).
  exact (proj1 (profile_click_checks_one _ _
                  {| Startup.sec := 1 # 2;
                     Startup.active_guid :=
                       "381b4222-f694-41f0-9685-ff5bb260df2e" |} N H)).
Defined.

(** X19: when the menu has been built and the identifiers of the listing
    are all different, the profile items that show as checked at the start
    are the item of the profile that [powercfg] marked as active, or none
    when it marked none. *)
Theorem startup_checked_profile (out : string) (st : Startup.Settings)
    (menu : list Startup.menu_entry) :
  Startup.init_menu (Ran out) = Startup.Ok (st, menu) ->
  NoDup (map (fun q => fst (fst q))
           (Startup.profiles_of (Py.splitlines out))) ->
  Startup.checked_items
    (Startup.profile_items (Startup.profiles_of (Py.splitlines out))) st
  = map (fun p => snd (fst p))
      (filter Startup.is_active (Startup.profiles_of (Py.splitlines out))).
Proof.
  intros I N. destruct (init_menu_active out) as [E _]. cbv zeta in E.
  rewrite I in E. rewrite checked_profile_items.
  set (ps := Startup.profiles_of (Py.splitlines out)) in *.
  destruct (filter Startup.is_active ps) as [| p [| q l]] eqn:F.
  - injection E as -> _. cbn [Startup.active_guid map].
    rewrite filter_none_by_key; [reflexivity |].
    intros H. apply in_map_iff in H as (q & Eq & Hq).
    pose proof (profiles_of_truthy (Py.splitlines out)) as T.
    rewrite Forall_forall in T. specialize (T q Hq).
    rewrite Eq in T. discriminate.
  - injection E as -> _. cbn [Startup.active_guid map].
    rewrite (filter_by_key ps p N); [reflexivity |].
    assert (Hp : In p (filter Startup.is_active ps))
      by (rewrite F; left; reflexivity).
    apply filter_In in Hp as [Hp _]. exact Hp.
  - discriminate.
Qed.

Lemma startup_checked_profile_witness :
  Startup.init_menu
    (Ran (Startup.listing
            [("381b4222-f694-41f0-9685-ff5bb260df2e", "Balanced", false);
             ("8c5e7fda-e8bf-4a96-9a85-a6e23a8c635c", "High performance",
              true)]))
  = Startup.Ok
      ({| Startup.sec := 1 # 2;
          Startup.active_guid := "8c5e7fda-e8bf-4a96-9a85-a6e23a8c635c" |},
       Startup.menu_of
         [("381b4222-f694-41f0-9685-ff5bb260df2e", "Balanced", EmptyString);
          ("8c5e7fda-e8bf-4a96-9a85-a6e23a8c635c", "High performance",
           " *")])
  /\ Startup.checked_items
       (Startup.profile_items
          (Startup.profiles_of
             (Py.splitlines
                (Startup.listing
                   [("381b4222-f694-41f0-9685-ff5bb260df2e", "Balanced",
                     false);
                    ("8c5e7fda-e8bf-4a96-9a85-a6e23a8c635c",
                     "High performance", true)]))))
       {| Startup.sec := 1 # 2;
          Startup.active_guid := "8c5e7fda-e8bf-4a96-9a85-a6e23a8c635c" |}
     = ["High performance"].
Proof.
  assert (I : Startup.init_menu
                (Ran (Startup.listing
                        [("381b4222-f694-41f0-9685-ff5bb260df2e", "Balanced",
                          false);
                         ("8c5e7fda-e8bf-4a96-9a85-a6e23a8c635c",
                          "High performance", true)]))
              = Startup.Ok
                  ({| Startup.sec := 1 # 2;
                      Startup.active_guid :=
                        "8c5e7fda-e8bf-4a96-9a85-a6e23a8c635c" |},
                   Startup.menu_of
                     [("381b4222-f694-41f0-9685-ff5bb260df2e", "Balanced",
                       EmptyString);
                      ("8c5e7fda-e8bf-4a96-9a85-a6e23a8c635c",
                       "High performance", " *")])) by reflexivity.
  split; [exact I |].
  rewrite (startup_checked_profile _ _ _ I).
  - reflexivity.
  - vm_compute. repeat constructor; cbn; intuition discriminate.
Defined.

(** X20: from the start of the program on, whatever items of the menu are
    clicked and in whatever order, exactly one of the two interval items
    shows as checked: the half second at the start and when the last click
    on an interval item was on it, the second when that click was on the
    second; no other item changes [sec]. *)
Theorem one_interval_checked (p : popen) (st : Startup.Settings)
    (menu : list Startup.menu_entry) (acts : list Startup.callback) :
  Startup.init_menu p = Startup.Ok (st, menu) ->
  Forall (fun a => In a (Startup.actions_of menu)) acts ->
  ((Startup.sec (Startup.clicks acts st) = (1 # 2)%Q
    /\ Startup.checked_items (firstn 2 menu) (Startup.clicks acts st)
       = ["0.5 sec"])
   \/ (Startup.sec (Startup.clicks acts st) = 1%Q
       /\ Startup.checked_items (firstn 2 menu) (Startup.clicks acts st)
          = ["1 sec"]))
  /\ (forall a spawned s,
        (forall x, a <> Startup.SetSec x) ->
        Startup.sec (Startup.click a spawned s) = Startup.sec s).
Proof.
  intros I A. split.
  2: { intros a spawned s N. destruct a as [x | g | |]; cbn;
         [destruct (N x eq_refl) | destruct spawned; reflexivity
         | reflexivity | reflexivity]. }
  assert (M : exists ps, menu = Startup.menu_of ps
                         /\ Startup.sec st = (1 # 2)%Q).
  { destruct p as [| out |]; [discriminate | | discriminate].
    destruct (init_menu_active out) as [E _]. cbv zeta in E.
    rewrite I in E.
    destruct (filter Startup.is_active _) as [| q [| r l]];
      try discriminate; injection E as -> ->; eexists; split; reflexivity. }
  destruct M as (ps & -> & S0).
  assert (K : Startup.sec (Startup.clicks acts st) = (1 # 2)%Q
              \/ Startup.sec (Startup.clicks acts st) = 1%Q).
  { assert (S1 : Startup.sec st = (1 # 2)%Q \/ Startup.sec st = 1%Q)
      by auto.
    clear S0 I. revert st S1. unfold Startup.clicks.
    induction A as [| a acts Ha Hacts IH]; intros st S1; [exact S1 |].
    cbn [fold_left]. apply IH.
    destruct a as [x | g | |]; cbn; auto.
    destruct (menu_intervals ps x Ha) as [-> | ->]; auto. }
  unfold Startup.menu_of. cbn [app firstn Startup.checked_items].
  unfold Startup.is_checked.
  destruct K as [-> | ->]; [left | right]; split; reflexivity.
Qed.

Lemma one_interval_checked_witness :
  Startup.init_menu (Ran EmptyString)
  = Startup.Ok ({| Startup.sec := 1 # 2;
                   Startup.active_guid := EmptyString |},
                Startup.menu_of [])
  /\ Forall (fun a => In a (Startup.actions_of (Startup.menu_of [])))
       [Startup.SetSec 1; Startup.SearchForUpdates]
  /\ Startup.checked_items (firstn 2 (Startup.menu_of []))
       (Startup.clicks [Startup.SetSec 1; Startup.SearchForUpdates]
          {| Startup.sec := 1 # 2; Startup.active_guid := EmptyString |})
     = ["1 sec"].
Proof.
  assert (I : Startup.init_menu (Ran EmptyString)
              = Startup.Ok ({| Startup.sec := 1 # 2;
                               Startup.active_guid := EmptyString |},
                            Startup.menu_of [])) by reflexivity.
  assert (A : Forall (fun a => In a (Startup.actions_of
                                       (Startup.menu_of [])))
                [Startup.SetSec 1; Startup.SearchForUpdates]).
  { apply Forall_forall.
    intros a [<- | [<- | []]]; unfold Startup.menu_of; cbn; auto 10. }
  split; [exact I |]. split; [exact A |].
  destruct (proj1 (one_interval_checked _ _ _ _ I A)) as [[E _] | [_ E]].
  - discriminate E.
  - exact E.
Defined.

(** ** Notifications over a run *)

Lemma step_flags (cfg : Configurables) (a : action) (w : Widget) :
  let w' := fst (step cfg a w) in
  let es := snd (step cfg a w) in
  (notified "Pip" es + Nat.b2n (pip_update w')
   <= Nat.b2n (pip_update w) + Nat.b2n (is_pip_worker a))%nat
  /\ (notified "Chocolatey" es + Nat.b2n (choco_update w')
      <= Nat.b2n (choco_update w) + Nat.b2n (is_choco_worker a))%nat.
Proof.
  destruct a as [t | p | p | color];
    cbn [step fst snd is_pip_worker is_choco_worker Nat.b2n].
  - rewrite !body_notified.
    destruct (body_flags cfg t w) as [-> ->].
    destruct (drain_notified w) as (-> & -> & _). cbn. lia.
  - destruct (pip_worker_shape cfg p) as (b & ->).
    destruct b; destruct w as [c q k f l]; destruct c, q; cbn; lia.
  - destruct (choco_worker_shape cfg p) as (b & ->).
    destruct b; destruct w as [c q k f l]; destruct c, q; cbn; lia.
  - destruct w as [c q k f l]; destruct c, q; cbn; lia.
Qed.

(** X21: over any run, the notifications posted for an ecosystem are at
    most as many as the worker threads of that ecosystem that ended during
    the run, and one more when the run started with the flag set: the loop
    posts nothing that a check has not asked for, and several checks that
    end between two iterations are reported once. *)
Theorem notifications_bounded (cfg : Configurables) (actions : list action)
    (w : Widget) :
  (total_notified "Pip" (snd (run cfg actions w))
   + Nat.b2n (pip_update (fst (run cfg actions w)))
   <= Nat.b2n (pip_update w) + List.length (filter is_pip_worker actions))%nat
  /\ (total_notified "Chocolatey" (snd (run cfg actions w))
      + Nat.b2n (choco_update (fst (run cfg actions w)))
      <= Nat.b2n (choco_update w)
         + List.length (filter is_choco_worker actions))%nat.
Proof.
  revert w. induction actions as [| a rest IH]; intros w.
  - cbn. lia.
  - cbn [run]. pose proof (step_flags cfg a w) as S. cbv zeta in S.
    destruct (step cfg a w) as [w1 e]. cbn [fst snd] in S.
    specialize (IH w1). destruct (run cfg rest w1) as [w2 es].
    cbn [fst snd] in *. unfold total_notified in *. cbn [map filter].
    rewrite !list_sum_cons.
    destruct (is_pip_worker a), (is_choco_worker a);
      cbn [List.length Nat.b2n] in *; lia.
Qed.
